(** * Multi-provider fallback orchestration of the code-mentor backend

    Shallow embedding of
    - [backend/src/services/aiService.ts] (the provider registry, the
      selection of the attempt order and [executeWithFallback]),
    - [backend/src/services/geminiService.ts] (constructor, [isAvailable],
      [retryWithBackoff] and the adapter operations),
    - [backend/src/utils/validation.ts], [backend/src/utils/responseUtils.ts]
      and [backend/src/controllers/analysisController.ts] (the HTTP facade),
    - [backend/src/services/groqService.ts] and
      [backend/src/services/huggingFaceService.ts] (the other two adapters)
      and the loading of the three adapter modules from [process.env],
    - [frontend/src/utils/analysisUtils.ts] (the [ApiService] client,
      [extractJSONFromAnalysis] and [processAnalysisResults]).

    Remote services are opaque: an adapter operation is a function from its
    arguments to a settled promise, [Ok v] (resolved) or [Err e] (rejected
    with an [Error]). Each candidate is invoked at most once per
    orchestration, so a function is enough to describe what every
    invocation would produce. *)

From Stdlib Require Import String Ascii List ZArith QArith Qround Bool Lia.
From Stdlib Require Import Sorting.Permutation Sorting.Sorted Lqa.
Import ListNotations.

Open Scope Z_scope.

(* ------------------------------------------------------------------ *)
(** ** JavaScript strings *)

Module JsString.

(** [String.prototype.toLowerCase] on the ASCII range. *)
Definition lowerAscii (c : ascii) : ascii :=
  let n := nat_of_ascii c in
  if andb (Nat.leb 65 n) (Nat.leb n 90) then ascii_of_nat (n + 32) else c.

Fixpoint toLowerCase (s : string) : string :=
  match s with
  | EmptyString => EmptyString
  | String c s' => String (lowerAscii c) (toLowerCase s')
  end.

Fixpoint startsWith (s pre : string) : bool :=
  match pre, s with
  | EmptyString, _ => true
  | String c pre', String d s' => Ascii.eqb c d && startsWith s' pre'
  | String _ _, EmptyString => false
  end.

(** [s.includes(sub)]. *)
Fixpoint includes (s sub : string) : bool :=
  startsWith s sub ||
  match s with
  | EmptyString => false
  | String _ s' => includes s' sub
  end.

(** White space removed by [String.prototype.trim] (ASCII part). *)
Definition isWhiteSpace (c : ascii) : bool :=
  let n := nat_of_ascii c in
  Nat.eqb n 32 || (Nat.leb 9 n && Nat.leb n 13).

Fixpoint trimStart (s : string) : string :=
  match s with
  | EmptyString => EmptyString
  | String c s' => if isWhiteSpace c then trimStart s' else s
  end.

Definition reverse (s : string) : string :=
  string_of_list_ascii (rev (list_ascii_of_string s)).

Definition trim (s : string) : string := reverse (trimStart (reverse (trimStart s))).

End JsString.

Import JsString.

(* ------------------------------------------------------------------ *)
(** ** Errors and settled promises *)

Record Error := mkError { message : string }.

Inductive outcome (A : Type) : Type :=
| Ok (v : A)
| Err (e : Error).

Arguments Ok {A} v.
Arguments Err {A} e.

(* ------------------------------------------------------------------ *)
(** ** JSON values (request bodies and response payloads) *)

#[local] Set Warnings "-register-all".

Inductive json : Type :=
| JNull
| JBool (b : bool)
| JNum (n : Z)
| JStr (s : string)
| JArr (xs : list json)
| JObj (fields : list (string * json)).

(** Property read on a parsed object: [None] is [undefined]. *)
Fixpoint get (fields : list (string * json)) (key : string) : option json :=
  match fields with
  | [] => None
  | (k, v) :: rest => if String.eqb k key then Some v else get rest key
  end.

Definition getJ (o : json) (key : string) : option json :=
  match o with JObj fs => get fs key | _ => None end.

(* ------------------------------------------------------------------ *)
(** ** interfaces/AIProvider.ts *)

Module AIProvider.
(** [interface AIProvider]; [generateReport] is the optional method. *)
Record t := mk {
  isAvailable : unit -> bool;
  analyzeCode : string -> string -> string -> outcome string;
  explainCode : string -> string -> outcome string;
  suggestImprovements : string -> string -> string -> outcome string;
  generateReport : option (list json -> option json -> outcome string)
}.
End AIProvider.

(** [interface ProviderConfiguration]. *)
Record ProviderConfiguration := mkProvider {
  name : string;
  service : AIProvider.t;
  priority : Z;
  checkAvailable : option (unit -> bool)
}.

(* ------------------------------------------------------------------ *)
(** ** types/analysis.ts *)

Module AnalysisRequest.
(** [interface AnalysisRequest]; optional fields are [None] when undefined. *)
Record t := mk {
  code : string;
  language : option string;
  analysisType : option string;
  preferredProvider : option string
}.
End AnalysisRequest.

Module Metadata.
Record t := mk {
  language : string;
  analysisType : string;
  timestamp : string
}.
End Metadata.

Module ProcessedAnalysisResult.
(** [interface ProcessedAnalysisResult]. *)
Record t := mk {
  analysis : string;
  provider : string;
  metadata : Metadata.t
}.
End ProcessedAnalysisResult.

(* ------------------------------------------------------------------ *)
(** ** services/aiService.ts : selection of the attempt order *)

Module AIService.

(** [!provider.checkAvailable || provider.checkAvailable()] *)
Definition isListed (p : ProviderConfiguration) : bool :=
  match checkAvailable p with
  | None => true
  | Some f => f tt
  end.

(** [Array.prototype.sort] with comparator [a.priority - b.priority]: the
    sort is stable, so it is the stable insertion sort below. *)
Fixpoint insertByPriority (x : ProviderConfiguration) (l : list ProviderConfiguration)
  : list ProviderConfiguration :=
  match l with
  | [] => [x]
  | y :: ys => if priority x <=? priority y then x :: y :: ys
               else y :: insertByPriority x ys
  end.

Fixpoint sortByPriority (l : list ProviderConfiguration) : list ProviderConfiguration :=
  match l with
  | [] => []
  | x :: xs => insertByPriority x (sortByPriority xs)
  end.

Definition getAvailableProviders (providers : list ProviderConfiguration)
  : list ProviderConfiguration :=
  sortByPriority (filter isListed providers).

(** [Array.prototype.findIndex]: first index satisfying [f], or [-1]. *)
Fixpoint findIndex {A} (f : A -> bool) (l : list A) : Z :=
  match l with
  | [] => -1
  | x :: xs => if f x then 0
               else let r := findIndex f xs in if r =? -1 then -1 else r + 1
  end.

(** JavaScript truthiness of an optional string parameter. *)
Definition truthy (s : option string) : bool :=
  match s with
  | None => false
  | Some s => negb (String.eqb s "")
  end.

(** Lines 24-36 of [executeWithFallback]: the candidate list. *)
Definition attemptOrder (providers : list ProviderConfiguration)
  (preferredProvider : option string) : list ProviderConfiguration :=
  let sortedProviders := getAvailableProviders providers in
  match preferredProvider with
  | Some pp =>
      if truthy preferredProvider && negb (String.eqb pp "auto") then
        let preferredIndex :=
          findIndex (fun p => String.eqb (toLowerCase (name p)) (toLowerCase pp))
            sortedProviders in
        if preferredIndex >? -1 then
          (* [sortedProviders.splice(preferredIndex, 1)[0]] *)
          let i := Z.to_nat preferredIndex in
          match nth_error sortedProviders i with
          | Some preferred =>
              preferred :: (firstn i sortedProviders ++ skipn (S i) sortedProviders)
          | None => sortedProviders (* findIndex returns a valid index *)
          end
        else sortedProviders
      else sortedProviders
  | None => sortedProviders
  end.

(** Error classification of lines 52-56 (both branches [continue]). *)
Definition isRateLimitMessage (m : string) : bool :=
  includes m "429" || includes m "quota" || includes m "rate limit".

Section Fallback.
Context {T : Type}.

(** One invocation of [operation] on one candidate, as recorded. *)
Definition attempt : Type := (ProviderConfiguration * outcome T)%type.

(** The [for ... of] loop of lines 40-63 followed by the throw of lines
    65-69. The result is [{ result, provider }] as a pair; the second
    component is the sequence of invocations performed. *)
Fixpoint attemptLoop (operation : ProviderConfiguration -> outcome T)
  (candidates : list ProviderConfiguration) (lastError : option Error)
  : outcome (T * string) * list attempt :=
  match candidates with
  | [] =>
      (Err (mkError
              match lastError with
              | Some e => "All AI providers failed. Last error: " ++ message e
              | None => "No AI providers available"
              end), [])
  | provider :: rest =>
      match operation provider with
      | Ok result => (Ok (result, name provider), [(provider, Ok result)])
      | Err error =>
          let lastError := Some error in
          let '(r, tr) :=
            if isRateLimitMessage (message error)
            then attemptLoop operation rest lastError   (* continue *)
            else attemptLoop operation rest lastError   (* continue *) in
          (r, (provider, Err error) :: tr)
      end
  end.

Definition executeWithFallback (providers : list ProviderConfiguration)
  (operation : ProviderConfiguration -> outcome T) (preferredProvider : option string)
  : outcome (T * string) * list attempt :=
  attemptLoop operation (attemptOrder providers preferredProvider) None.

End Fallback.

(** ** Operation wrappers (lines 72-143). [now] is the value of
    [new Date().toISOString()], evaluated after the orchestration settled. *)

Definition envelope (language analysisType now : string)
  (r : outcome (string * string) * list (@attempt string))
  : outcome ProcessedAnalysisResult.t * list (@attempt string) :=
  match r with
  | (Ok (analysis, provider), tr) =>
      (Ok (ProcessedAnalysisResult.mk analysis provider
             (Metadata.mk language analysisType now)), tr)
  | (Err e, tr) => (Err e, tr)
  end.

Definition withDefault (d : string) (o : option string) : string :=
  match o with Some s => s | None => d end.

Definition analyzeCode (providers : list ProviderConfiguration)
  (request : AnalysisRequest.t) (now : string)
  : outcome ProcessedAnalysisResult.t * list (@attempt string) :=
  let code := AnalysisRequest.code request in
  let language := withDefault "javascript" (AnalysisRequest.language request) in
  let analysisType := withDefault "general" (AnalysisRequest.analysisType request) in
  let preferredProvider := withDefault "auto" (AnalysisRequest.preferredProvider request) in
  envelope language analysisType now
    (executeWithFallback providers
       (fun provider => AIProvider.analyzeCode (service provider) code language analysisType)
       (Some preferredProvider)).

Definition explainCode (providers : list ProviderConfiguration)
  (code : string) (language : option string) (now : string)
  : outcome ProcessedAnalysisResult.t * list (@attempt string) :=
  let language := withDefault "javascript" language in
  envelope language "explanation" now
    (executeWithFallback providers
       (fun provider => AIProvider.explainCode (service provider) code language) None).

Definition suggestImprovements (providers : list ProviderConfiguration)
  (code : string) (language context : option string) (now : string)
  : outcome ProcessedAnalysisResult.t * list (@attempt string) :=
  let language := withDefault "javascript" language in
  let context := withDefault "" context in
  envelope language "improvements" now
    (executeWithFallback providers
       (fun provider =>
          AIProvider.suggestImprovements (service provider) code language context) None).

(** The closure of lines 125-131: probe for the optional method. *)
Definition reportOperation (analysisResults : list json) (projectInfo : option json)
  (provider : ProviderConfiguration) : outcome string :=
  match AIProvider.generateReport (service provider) with
  | Some generate => generate analysisResults projectInfo
  | None => Err (mkError "Report generation not supported by this provider")
  end.

Definition generateReport (providers : list ProviderConfiguration)
  (analysisResults : list json) (projectInfo : option json) (now : string)
  : outcome ProcessedAnalysisResult.t * list (@attempt string) :=
  envelope "multiple" "report" now
    (executeWithFallback providers (reportOperation analysisResults projectInfo) None).

Definition getAvailableProviderNames (providers : list ProviderConfiguration) : list string :=
  map name (getAvailableProviders providers).

End AIService.

(* ------------------------------------------------------------------ *)
(** ** config/config.ts and services/geminiService.ts *)

Module GeminiService.

(** [config.gemini]: [apiKey: process.env.GEMINI_API_KEY || ''].
    [config] is a module constant that no code of the backend writes. *)
Record Config := mkConfig { apiKey : string }.

Definition configOfEnv (GEMINI_API_KEY : option string) : Config :=
  mkConfig (match GEMINI_API_KEY with
            | Some s => if String.eqb s "" then "" else s
            | None => ""
            end).

(** The fields set by the constructor. *)
Record t := mk { genAIKey : string; model : string }.

(** [constructor()] of [class GeminiService]. *)
Definition constructor (config : Config) : outcome t :=
  if String.eqb (apiKey config) "" then Err (mkError "Gemini API key is required")
  else Ok (mk (apiKey config) "gemini-2.5-flash").

(** [isAvailable() { return !!config.gemini.apiKey; }]: it reads the
    module-level [config], not a field of the instance. *)
Definition isAvailable (config : Config) (self : t) : bool :=
  negb (String.eqb (apiKey config) "").

(** Observable steps of [retryWithBackoff]: the [k]-th call of
    [operation()] and each [setTimeout] sleep of [ms] milliseconds. *)
Inductive retryEvent : Type :=
| Attempted (k : Z)
| Slept (ms : Q).

Definition isRateLimitError (e : Error) : bool :=
  includes (message e) "429" || includes (message e) "quota".

Section Retry.
Context {T : Type}.

(** [operation attempt] is what the call of [operation()] made in loop
    iteration [attempt] settles to. [maxRetries] and [baseDelay] are
    JavaScript numbers; the loop counter starts at 1 and is an integer. *)
Variable operation : Z -> outcome T.
Variables maxRetries baseDelay : Q.

Fixpoint retryLoop (fuel : nat) (attempt : Z) : outcome T * list retryEvent :=
  match fuel with
  | O => (Err (mkError "Max retries exceeded"), [])
  | S fuel' =>
      if Qle_bool (inject_Z attempt) maxRetries then
        match operation attempt with
        | Ok v => (Ok v, [Attempted attempt])
        | Err error =>
            let isLastAttempt := Qeq_bool (inject_Z attempt) maxRetries in
            let isRateLimit := isRateLimitError error in
            if isLastAttempt || negb isRateLimit then (Err error, [Attempted attempt])
            else
              let delay := (baseDelay * inject_Z (2 ^ (attempt - 1)))%Q in
              let '(r, tr) := retryLoop fuel' (attempt + 1) in
              (r, Attempted attempt :: Slept delay :: tr)
        end
      else (Err (mkError "Max retries exceeded"), [])   (* line 87 *)
  end.

(** The loop runs at most [floor maxRetries] iterations before its test
    fails, so this fuel never runs out before the loop exits. *)
Definition retryWithBackoff : outcome T * list retryEvent :=
  retryLoop (S (Z.to_nat (Qfloor maxRetries))) 1.

End Retry.

Section Adapter.
(** The remote model: [generateContent k prompt] is what the [k]-th
    request of one adapter operation settles to (with [response.text()]
    applied). Prompt templates are data; they are left abstract. *)
Variable generateContent : Z -> string -> outcome string.
Variable buildAnalysisPrompt : string -> string -> string -> string.
Variable explainPrompt : string -> string -> string.
Variable improvePrompt : string -> string -> string -> string.
Variable reportPrompt : list json -> json -> string.

Definition analyzeCodeRun (code language analysisType : string)
  : outcome string * list retryEvent :=
  let prompt := buildAnalysisPrompt code language analysisType in
  let '(r, tr) := retryWithBackoff (fun k => generateContent k prompt) 3%Q 1000%Q in
  match r with
  | Ok text => (Ok text, tr)
  | Err error =>
      if includes (message error) "429"
      then (Err (mkError "API quota exceeded. Please wait a moment and try again, or check your Gemini API billing."), tr)
      else (Err (mkError ("Code analysis failed: " ++ message error)), tr)
  end.

Definition analyzeCode (code language analysisType : string) : outcome string :=
  fst (analyzeCodeRun code language analysisType).

Definition explainCode (code language : string) : outcome string :=
  match generateContent 1 (explainPrompt code language) with
  | Ok text => Ok text
  | Err error => Err (mkError ("Code explanation failed: " ++ message error))
  end.

Definition suggestImprovements (code language context : string) : outcome string :=
  match generateContent 1 (improvePrompt code language context) with
  | Ok text => Ok text
  | Err error => Err (mkError ("Code improvement suggestions failed: " ++ message error))
  end.

Definition generateReport (analysisResults : list json) (projectInfo : option json)
  : outcome string :=
  let projectInfo := match projectInfo with Some p => p | None => JObj [] end in
  match generateContent 1 (reportPrompt analysisResults projectInfo) with
  | Ok text => Ok text
  | Err error => Err (mkError ("Report generation failed: " ++ message error))
  end.

(** A constructed instance seen through [interface AIProvider]. *)
Definition asProvider (config : Config) (self : t) : AIProvider.t :=
  AIProvider.mk (fun _ => isAvailable config self) analyzeCode explainCode
    suggestImprovements (Some generateReport).

(** [export default new GeminiService();]: evaluated when the module loads. *)
Definition loadModule (config : Config) : outcome AIProvider.t :=
  match constructor config with
  | Ok self => Ok (asProvider config self)
  | Err e => Err e
  end.

End Adapter.

End GeminiService.

(* ------------------------------------------------------------------ *)
(** ** The registry of [class AIService] (lines 8-12) and module loading *)

Module Registry.

Definition providers (geminiService groqService huggingFaceService : AIProvider.t)
  : list ProviderConfiguration :=
  [ mkProvider "Gemini" geminiService 1 None;
    mkProvider "Groq" groqService 2
      (Some (fun _ => AIProvider.isAvailable groqService tt));
    mkProvider "HuggingFace" huggingFaceService 3 None ].

(** Loading [aiService.ts] first loads [geminiService.ts] (an exception
    there aborts the import), then builds [new AIService()]. The Groq and
    HuggingFace modules construct without throwing. *)
Definition loadAIService (geminiModule : outcome AIProvider.t)
  (groqService huggingFaceService : AIProvider.t) : outcome (list ProviderConfiguration) :=
  match geminiModule with
  | Ok geminiService => Ok (providers geminiService groqService huggingFaceService)
  | Err e => Err e
  end.

End Registry.

(* ------------------------------------------------------------------ *)
(** ** utils/validation.ts *)

Module Validation.

Local Open Scope string_scope.

(** JavaScript truthiness of a request-body property ([None] is
    [undefined]). *)
Definition truthyJ (v : option json) : bool :=
  match v with
  | None | Some JNull | Some (JBool false) => false
  | Some (JNum n) => negb (Z.eqb n 0)
  | Some (JStr s) => negb (String.eqb s "")
  | Some _ => true
  end.

Definition typeofString (v : option json) : option string :=
  match v with Some (JStr s) => Some s | _ => None end.

Definition codeRequiredMessage : string :=
  "Code is required and must be a non-empty string"%string.

(** [validateCode]; precedence of [||] is left to right, as in the source. *)
Definition validateCode (code : option json) : option string :=
  if negb (truthyJ code) then Some codeRequiredMessage
  else match typeofString code with
       | None => Some codeRequiredMessage
       | Some s =>
           if Nat.eqb (String.length (trim s)) 0 then Some codeRequiredMessage
           else if Z.ltb 2000000 (Z.of_nat (String.length s))
                then Some "Code is too large. Maximum size is 2MB"%string
                else None
       end.

Definition supportedLanguages : list string :=
  [ "javascript"; "typescript"; "python"; "java"; "cpp"; "c"; "csharp";
    "php"; "ruby"; "go"; "rust"; "swift"; "html"; "css"; "scss"; "json";
    "markdown"; "sql"; "bash"; "text" ].

Definition includesStr (l : list string) (s : string) : bool :=
  existsb (String.eqb s) l.

Definition validateLanguage (language : option json) : string :=
  if negb (truthyJ language) then "javascript"
  else match typeofString language with
       | None => "javascript"
       | Some s =>
           if includesStr supportedLanguages (toLowerCase s) then toLowerCase s
           else "javascript"
       end.

(** [validTypes.includes(v)]: only a string equal to a member matches. *)
Definition validateAnalysisType (analysisType : option json) : string :=
  match typeofString analysisType with
  | Some s => if includesStr ["general"; "security"; "performance"; "maintainability"] s
              then s else "general"
  | None => "general"
  end.

Definition validateProviderType (provider : option json) : string :=
  match typeofString provider with
  | Some s => if includesStr ["gemini"; "groq"; "huggingface"; "auto"] s then s else "auto"
  | None => "auto"
  end.

End Validation.

(* ------------------------------------------------------------------ *)
(** ** utils/responseUtils.ts *)

Module Response.

Local Open Scope string_scope.

Record t := mk { status : Z; body : json }.

Definition sendSuccess (data : json) : t :=
  mk 200 (JObj [("success", JBool true); ("data", data)]).

Definition sendError (error message : string) (statusCode : Z) : t :=
  mk statusCode (JObj [("success", JBool false); ("error", JStr error);
                       ("message", JStr message)]).

Definition sendValidationError (message : string) : t :=
  sendError "Validation Error" message 400.

Definition sendServerError (error : Error) : t :=
  sendError "Internal Server Error" (message error) 500.

End Response.

(* ------------------------------------------------------------------ *)
(** ** controllers/analysisController.ts *)

Module AnalysisController.

Local Open Scope string_scope.

(** [res.json] of a [ProcessedAnalysisResult]. *)
Definition processedToJson (r : ProcessedAnalysisResult.t) : json :=
  let m := ProcessedAnalysisResult.metadata r in
  JObj [ ("analysis", JStr (ProcessedAnalysisResult.analysis r));
         ("provider", JStr (ProcessedAnalysisResult.provider r));
         ("metadata", JObj [ ("language", JStr (Metadata.language m));
                             ("analysisType", JStr (Metadata.analysisType m));
                             ("timestamp", JStr (Metadata.timestamp m)) ]) ].

Definition reply (r : outcome ProcessedAnalysisResult.t * list (@AIService.attempt string))
  : Response.t * list (@AIService.attempt string) :=
  match r with
  | (Ok result, tr) => (Response.sendSuccess (processedToJson result), tr)
  | (Err e, tr) => (Response.sendServerError e, tr)
  end.

(** [code.trim()] on a non-string throws a [TypeError], caught by the
    handler's [catch]; [validateCode] rules this out. *)
Definition trimError : Error := mkError "code.trim is not a function".

Section Handlers.
(** The registry and the clock: [now] is the ISO string produced by the
    [new Date().toISOString()] of the service wrapper; [nowController] the
    one of the report handler. *)
Variable providers : list ProviderConfiguration.
Variables now nowController : string.
(** JavaScript [ToString] of a non-string [context] in a template literal. *)
Variable toTemplateString : json -> string.

Definition analyzeCode (body : list (string * json)) : Response.t * list (@AIService.attempt string) :=
  let code := get body "code" in
  match Validation.validateCode code with
  | Some codeError => (Response.sendValidationError codeError, [])
  | None =>
      match code with
      | Some (JStr c) =>
          let analysisRequest :=
            AnalysisRequest.mk (trim c)
              (Some (Validation.validateLanguage (get body "language")))
              (Some (Validation.validateAnalysisType (get body "analysisType")))
              (Some (Validation.validateProviderType (get body "preferredProvider"))) in
          reply (AIService.analyzeCode providers analysisRequest now)
      | _ => (Response.sendServerError trimError, [])
      end
  end.

Definition explainCode (body : list (string * json)) : Response.t * list (@AIService.attempt string) :=
  let code := get body "code" in
  match Validation.validateCode code with
  | Some codeError => (Response.sendValidationError codeError, [])
  | None =>
      match code with
      | Some (JStr c) =>
          let validatedLanguage := Validation.validateLanguage (get body "language") in
          reply (AIService.explainCode providers (trim c) (Some validatedLanguage) now)
      | _ => (Response.sendServerError trimError, [])
      end
  end.

Definition suggestImprovements (body : list (string * json))
  : Response.t * list (@AIService.attempt string) :=
  let code := get body "code" in
  (* [const { context = '' } = req.body] *)
  let context := match get body "context" with
                 | None => ""
                 | Some (JStr s) => s
                 | Some v => toTemplateString v
                 end in
  match Validation.validateCode code with
  | Some codeError => (Response.sendValidationError codeError, [])
  | None =>
      match code with
      | Some (JStr c) =>
          let validatedLanguage := Validation.validateLanguage (get body "language") in
          reply (AIService.suggestImprovements providers (trim c) (Some validatedLanguage)
                   (Some context) now)
      | _ => (Response.sendServerError trimError, [])
      end
  end.

Definition generateReport (body : list (string * json))
  : Response.t * list (@AIService.attempt string) :=
  let analysisResults := get body "analysisResults" in
  let projectInfo := match get body "projectInfo" with None => JObj [] | Some v => v end in
  match analysisResults with
  | Some (JArr ((_ :: _) as results)) =>
      match AIService.generateReport providers results (Some projectInfo) now with
      | (Ok report, tr) =>
          (Response.sendSuccess
             (JObj [ ("report", processedToJson report);
                     ("metadata", JObj [ ("projectInfo", projectInfo);
                                         ("generatedAt", JStr nowController);
                                         ("resultsCount", JNum (Z.of_nat (length results))) ]) ]),
           tr)
      | (Err e, tr) => (Response.sendServerError e, tr)
      end
  | _ => (Response.sendValidationError
            "Analysis results must be provided as a non-empty array", [])
  end.

End Handlers.

End AnalysisController.

(* ------------------------------------------------------------------ *)
(** ** Test doubles: registries of fake adapters *)

Module Fixtures.

Local Open Scope string_scope.

(** An adapter whose operations all settle to [r], with or without the
    optional report method. *)
Definition fakeService (available : bool) (r : outcome string)
  (report : option (outcome string)) : AIProvider.t :=
  AIProvider.mk (fun _ => available) (fun _ _ _ => r) (fun _ _ => r) (fun _ _ _ => r)
    (match report with Some rr => Some (fun _ _ => rr) | None => None end).

Definition failing (m : string) : outcome string := Err (mkError m).

Definition P1 : ProviderConfiguration :=
  mkProvider "P1" (fakeService true (failing "P1 down") None) 1 None.
Definition P2 : ProviderConfiguration :=
  mkProvider "P2" (fakeService true (Ok "from P2") (Some (Ok "report by P2"))) 2 None.
Definition P3 : ProviderConfiguration :=
  mkProvider "P3" (fakeService true (failing "429 Too Many Requests") None) 3 None.

(** The registry as registered (not in priority order). *)
Definition registry : list ProviderConfiguration := [P3; P1; P2].

(** The same registry with P2's availability predicate returning false. *)
Definition P2off : ProviderConfiguration :=
  mkProvider "P2" (fakeService false (Ok "from P2") (Some (Ok "report by P2"))) 2
    (Some (fun _ => false)).
Definition registryP2off : list ProviderConfiguration := [P3; P1; P2off].

(** An operation closure: calls [analyzeCode] of the candidate. *)
Definition analyzeOp (p : ProviderConfiguration) : outcome string :=
  AIProvider.analyzeCode (service p) "console.log(1)" "javascript" "general".

End Fixtures.

(* ------------------------------------------------------------------ *)
(** ** Expected values used in the statements *)

Module Expected.
Local Open Scope string_scope.

(** Order of the sorted candidate list. *)
Definition prioLe (a b : ProviderConfiguration) : Prop := priority a <= priority b.

Definition unsupported : Error := mkError "Report generation not supported by this provider".

(** The JSON of a successful [POST /report], as the controller builds it. *)
Definition reportPayload (r provider now nowController : string) (projectInfo : json)
  (resultsCount : nat) : json :=
  JObj [ ("success", JBool true);
         ("data", JObj [ ("report",
                          JObj [ ("analysis", JStr r); ("provider", JStr provider);
                                 ("metadata", JObj [ ("language", JStr "multiple");
                                                     ("analysisType", JStr "report");
                                                     ("timestamp", JStr now) ]) ]);
                         ("metadata",
                          JObj [ ("projectInfo", projectInfo);
                                 ("generatedAt", JStr nowController);
                                 ("resultsCount", JNum (Z.of_nat resultsCount)) ]) ]) ].

(** The 400 answer to a missing or blank [code]. *)
Definition codeValidationResponse : Response.t :=
  Response.mk 400 (JObj [ ("success", JBool false); ("error", JStr "Validation Error");
                          ("message", JStr "Code is required and must be a non-empty string") ]).

(** Calls and sleeps of [retryWithBackoff] when all three calls fail. *)
Definition fullBackoffTrace : list GeminiService.retryEvent :=
  [GeminiService.Attempted 1; GeminiService.Slept 1000; GeminiService.Attempted 2; GeminiService.Slept 2000; GeminiService.Attempted 3].

(** The error the Gemini adapter's [analyzeCode] rejects with after its
    retry loop rejected with [e] (lines 52-61). *)
Definition analyzeFailure (e : Error) : Error :=
  if includes (message e) "429"
  then mkError "API quota exceeded. Please wait a moment and try again, or check your Gemini API billing."
  else mkError ("Code analysis failed: " ++ message e).

End Expected.

(* ------------------------------------------------------------------ *)
(** ** utils/validation.ts : [validateAnalysisResults] *)

Module ResultsValidation.
Local Open Scope string_scope.

Definition validateAnalysisResults (results : option json) : option string :=
  match results with
  | Some (JArr xs) =>
      if Validation.truthyJ results then
        if Nat.eqb (List.length xs) 0 then Some "Analysis results array cannot be empty"
        else if Z.ltb 50 (Z.of_nat (List.length xs))
             then Some "Too many analysis results. Maximum is 50"
             else None
      else Some "Analysis results must be provided as an array"
  | _ => Some "Analysis results must be provided as an array"
  end.

End ResultsValidation.

(** [value || fallback] on an optional string (undefined, or a string). *)
Definition orString (v : option string) (fallback : string) : string :=
  match v with
  | Some s => if String.eqb s "" then fallback else s
  | None => fallback
  end.

(* ------------------------------------------------------------------ *)
(** ** services/groqService.ts *)

Module GroqService.
Local Open Scope string_scope.

Record Config := mkConfig { apiKey : option string; model : string }.

Definition configOfEnv (GROQ_API_KEY : option string) : Config :=
  mkConfig GROQ_API_KEY "llama-3.3-70b-versatile".

(** [client] is [null] ([None]) or the SDK client built from the key. *)
Record t := mk { client : option string; config : Config }.

(** [constructor()]: the early [return] leaves [client] at [null]. *)
Definition constructor (GROQ_API_KEY : option string) : t :=
  let config := configOfEnv GROQ_API_KEY in
  if negb (AIService.truthy (apiKey config)) then mk None config
  else mk (apiKey config) config.

Definition isAvailable (self : t) : bool := AIService.truthy (apiKey (config self)).

Definition notInitialized : Error := mkError "Groq client not initialized - missing API key".

Section Adapter.
(** [create key model prompt] is what [client.chat.completions.create]
    settles to, projected on [completion.choices[0]?.message?.content]
    ([None] when undefined). Prompt templates are left abstract. *)
Variable create : string -> string -> string -> outcome (option string).
Variable buildAnalysisPrompt : string -> string -> string -> string.
Variable explainPrompt : string -> string -> string.
Variable improvePrompt : string -> string -> string -> string.

Definition analyzeCode (self : t) (code language analysisType : string) : outcome string :=
  match client self with
  | None => Err notInitialized
  | Some key =>
      let prompt := buildAnalysisPrompt code language analysisType in
      match create key (model (config self)) prompt with
      | Ok content => Ok (orString content "No analysis generated")
      | Err error => Err (mkError ("Groq analysis failed: " ++ message error))
      end
  end.

Definition explainCode (self : t) (code language : string) : outcome string :=
  match client self with
  | None => Err notInitialized
  | Some key =>
      let prompt := explainPrompt code language in
      match create key (model (config self)) prompt with
      | Ok content => Ok (orString content "No explanation generated")
      | Err error => Err (mkError ("Groq explanation failed: " ++ message error))
      end
  end.

Definition suggestImprovements (self : t) (code language context : string) : outcome string :=
  match client self with
  | None => Err notInitialized
  | Some key =>
      let prompt := improvePrompt code language context in
      match create key (model (config self)) prompt with
      | Ok content => Ok (orString content "No suggestions generated")
      | Err error => Err (mkError ("Groq improvement suggestions failed: " ++ message error))
      end
  end.

(** The instance seen through [interface AIProvider] (no [generateReport]). *)
Definition asProvider (self : t) : AIProvider.t :=
  AIProvider.mk (fun _ => isAvailable self) (analyzeCode self) (explainCode self)
    (suggestImprovements self) None.

End Adapter.

End GroqService.

(* ------------------------------------------------------------------ *)
(** ** services/huggingFaceService.ts *)

Module HuggingFaceService.
Local Open Scope string_scope.

Record Config := mkConfig { apiKey : option string; baseUrl : string; model : string }.

Definition configOfEnv (HUGGINGFACE_API_KEY : option string) : Config :=
  mkConfig HUGGINGFACE_API_KEY "https://api-inference.huggingface.co/models"
    "bigcode/starcoder2-15b".

Definition isAvailable (config : Config) : bool := AIService.truthy (apiKey config).

(** A [fetch] response: [response.ok], [response.statusText], and what
    [await response.json()] gives for [result[0]?.generated_text]. *)
Record FetchResponse := mkResponse {
  ok : bool;
  statusText : string;
  generatedText : outcome (option string)
}.

(** [`Bearer ${this.config.apiKey}`]: an unset key prints as [undefined]. *)
Definition authorization (config : Config) : string :=
  "Bearer " ++ match apiKey config with Some k => k | None => "undefined" end.

Section Adapter.
(** [fetch url authorization inputs] is what the POST settles to. *)
Variable fetch : string -> string -> string -> outcome FetchResponse.
Variable analyzePrompt : string -> string -> string.
Variable explainPrompt : string -> string -> string.
Variable improvePrompt : string -> string -> string -> string.

Definition analyzeCode (config : Config) (code language : string) : outcome string :=
  let body :=
    let prompt := analyzePrompt language code in
    match fetch (baseUrl config ++ "/" ++ model config) (authorization config) prompt with
    | Err error => Err error
    | Ok response =>
        if negb (ok response)
        then Err (mkError ("Hugging Face API error: " ++ statusText response))
        else match generatedText response with
             | Ok text => Ok (orString text "Unable to analyze code with Hugging Face API")
             | Err error => Err error
             end
    end in
  (* the [catch] of lines 51-54 *)
  match body with
  | Ok text => Ok text
  | Err error => Err (mkError ("Hugging Face analysis failed: " ++ message error))
  end.

Definition explainCode (config : Config) (code language : string) : outcome string :=
  analyzeCode config (explainPrompt language code) language.

Definition suggestImprovements (config : Config) (code language context : string)
  : outcome string :=
  analyzeCode config (improvePrompt language context code) language.

(** Called as [analyzeCode(code, language, analysisType)]: the third
    argument is dropped. No [generateReport]. *)
Definition asProvider (config : Config) : AIProvider.t :=
  AIProvider.mk (fun _ => isAvailable config) (fun code language _ => analyzeCode config code language)
    (explainCode config) (suggestImprovements config) None.

End Adapter.

End HuggingFaceService.

(* ------------------------------------------------------------------ *)
(** ** Loading the backend from its environment, and [getProviderStatus] *)

Module Backend.

Record Env := mkEnv {
  GEMINI_API_KEY : option string;
  GROQ_API_KEY : option string;
  HUGGINGFACE_API_KEY : option string
}.

Section Load.
Variable generateContent : Z -> string -> outcome string.
Variable buildAnalysisPrompt : string -> string -> string -> string.
Variable explainPrompt : string -> string -> string.
Variable improvePrompt : string -> string -> string -> string.
Variable reportPrompt : list json -> json -> string.
Variable create : string -> string -> string -> outcome (option string).
Variable groqAnalysisPrompt : string -> string -> string -> string.
Variable groqExplainPrompt : string -> string -> string.
Variable groqImprovePrompt : string -> string -> string -> string.
Variable fetch : string -> string -> string -> outcome HuggingFaceService.FetchResponse.
Variable hfAnalyzePrompt : string -> string -> string.
Variable hfExplainPrompt : string -> string -> string.
Variable hfImprovePrompt : string -> string -> string -> string.

(** [import aiService from '../services/aiService']: the three adapter
    modules are evaluated with [process.env], then the registry is built. *)
Definition load (env : Env) : outcome (list ProviderConfiguration) :=
  Registry.loadAIService
    (GeminiService.loadModule generateContent buildAnalysisPrompt explainPrompt improvePrompt
       reportPrompt (GeminiService.configOfEnv (GEMINI_API_KEY env)))
    (GroqService.asProvider create groqAnalysisPrompt groqExplainPrompt groqImprovePrompt
       (GroqService.constructor (GROQ_API_KEY env)))
    (HuggingFaceService.asProvider fetch hfAnalyzePrompt hfExplainPrompt hfImprovePrompt
       (HuggingFaceService.configOfEnv (HUGGINGFACE_API_KEY env))).

End Load.

End Backend.

Module StatusController.
Local Open Scope string_scope.

(** [getProviderStatus] of analysisController.ts. *)
Definition getProviderStatus (providers : list ProviderConfiguration) (env : Backend.Env)
  : Response.t :=
  Response.sendSuccess
    (JObj [ ("available_providers",
             JArr (map JStr (AIService.getAvailableProviderNames providers)));
            ("provider_configs",
             JObj [ ("gemini", JBool (AIService.truthy (Backend.GEMINI_API_KEY env)));
                    ("groq", JBool (AIService.truthy (Backend.GROQ_API_KEY env)));
                    ("huggingface", JBool (AIService.truthy (Backend.HUGGINGFACE_API_KEY env))) ]) ]).

End StatusController.

(* ------------------------------------------------------------------ *)
(** ** The frontend client ([ApiService] in frontend/src/utils/analysisUtils.ts)

    [api.post] hands back the backend's answer, a [Response.t]; axios
    resolves on a 2xx status and otherwise runs the response interceptor. *)

Module ApiService.
Local Open Scope string_scope.

Section Client.
(** [String(v)] of a non-string [message] or [error] field, and the
    [error.message] axios sets for a failed status. *)
Variable errorString : json -> string.
Variable axiosMessage : Z -> string.

Definition isSuccessStatus (status : Z) : bool := Z.leb 200 status && Z.ltb status 300.

Definition stringOf (v : option json) : string :=
  match v with Some (JStr s) => s | Some v => errorString v | None => "" end.

(** The rejection handler of the response interceptor. *)
Definition interceptorMessage (r : Response.t) : string :=
  let m := getJ (Response.body r) "message" in
  if Validation.truthyJ m then stringOf m
  else if negb (String.eqb (axiosMessage (Response.status r)) "") then axiosMessage (Response.status r)
  else "An unknown error occurred".

(** The body of [analyzeCode], [explainCode], [suggestImprovements] and
    [generateReport] after [await api.post(...)]; [data!] may be undefined. *)
Definition unwrap (fallback : string) (r : Response.t) : outcome (option json) :=
  if isSuccessStatus (Response.status r) then
    if Validation.truthyJ (getJ (Response.body r) "success") then Ok (getJ (Response.body r) "data")
    else
      let e := getJ (Response.body r) "error" in
      Err (mkError (if Validation.truthyJ e then stringOf e else fallback))
  else Err (mkError (interceptorMessage r)).

Definition analyzeCode (r : Response.t) : outcome (option json) := unwrap "Analysis failed" r.
Definition explainCode (r : Response.t) : outcome (option json) := unwrap "Code explanation failed" r.
Definition suggestImprovements (r : Response.t) : outcome (option json) :=
  unwrap "Improvement suggestions failed" r.
Definition generateReport (r : Response.t) : outcome (option json) :=
  unwrap "Report generation failed" r.

(** [interface AnalysisRequest] of the client; [JSON.stringify] omits
    undefined fields. *)
Record AnalysisRequest := mkRequest {
  code : string;
  language : option string;
  analysisType : option string;
  preferredProvider : option string
}.

Definition optField (k : string) (v : option string) : list (string * json) :=
  match v with Some s => [(k, JStr s)] | None => [] end.

Definition requestBody (r : AnalysisRequest) : list (string * json) :=
  (("code", JStr (code r)) :: optField "language" (language r)
     ++ optField "analysisType" (analysisType r)
     ++ optField "preferredProvider" (preferredProvider r))%list.

Section Files.
Context {File : Type}.
(** [readFileContent file], and the backend's answer to a POST of a body. *)
Variable readFileContent : File -> outcome string.
Variable post : list (string * json) -> Response.t.

(** The [for ... of] loop of [analyzeMultipleFiles]; the second component
    lists the files whose content was posted. *)
Fixpoint analyzeFiles (files : list (File * string)) (analysisType preferredProvider : string)
  : outcome (list (option json)) * list File :=
  match files with
  | [] => (Ok [], [])
  | (file, language) :: rest =>
      match readFileContent file with
      | Err error => (Err error, [])
      | Ok content =>
          match analyzeCode (post (requestBody (mkRequest content (Some language)
                                                  (Some analysisType) (Some preferredProvider)))) with
          | Err error => (Err error, [file])
          | Ok analysis =>
              let '(r, tr) := analyzeFiles rest analysisType preferredProvider in
              (match r with Ok results => Ok (analysis :: results) | Err e => Err e end, file :: tr)
          end
      end
  end.

Definition analyzeMultipleFiles (files : list (File * string))
  (analysisType preferredProvider : option string) : outcome (list (option json)) * list File :=
  analyzeFiles files (AIService.withDefault "general" analysisType)
    (AIService.withDefault "auto" preferredProvider).

End Files.
End Client.

End ApiService.

(** What the client makes of a backend answer: a 2xx answer resolves to
    its [data]; any other answer rejects with its non-empty [message]. *)
Definition clientMirrors (client : Response.t -> outcome (option json)) (resp : Response.t) : Prop :=
  (exists d, resp = Response.sendSuccess d /\ client resp = Ok (Some d)) \/
  (exists err m st, resp = Response.sendError err m st /\ m <> ""%string /\
     client resp = Err (mkError m)).

(* ------------------------------------------------------------------ *)
(** ** Aggregation of analysis results (frontend/src/utils/analysisUtils.ts)

    [JSON.parse] is opaque: it maps a text to the value it denotes, or to
    [None] when it throws. Parsed numbers are exact rationals; an object
    lists its own properties in order, each key once, and two objects or
    arrays of a parse are never the same allocation. [id] and [timestamp]
    (random and clock) are not modelled. *)

Module AnalysisUtils.
Local Open Scope string_scope.

Inductive value : Type :=
| VNull
| VBool (b : bool)
| VNum (q : Q)
| VStr (s : string)
| VArr (xs : list value)
| VObj (fields : list (string * value)).

Fixpoint lookup (fields : list (string * value)) (key : string) : option value :=
  match fields with
  | [] => None
  | (k, v) :: rest => if String.eqb k key then Some v else lookup rest key
  end.

(** Property read on a value other than [null] ([None] is [undefined]). *)
Definition field (v : value) (key : string) : option value :=
  match v with VObj fs => lookup fs key | _ => None end.

Definition truthy (v : value) : bool :=
  match v with
  | VNull => false
  | VBool b => b
  | VNum q => negb (Qeq_bool q 0)
  | VStr s => negb (String.eqb s "")
  | VArr _ | VObj _ => true
  end.

Definition truthyOpt (v : option value) : bool :=
  match v with Some v => truthy v | None => false end.

(** The membership test of [new Set]: SameValueZero. *)
Definition sameValueZero (a b : value) : bool :=
  match a, b with
  | VNull, VNull => true
  | VBool x, VBool y => Bool.eqb x y
  | VNum p, VNum q => Qeq_bool p q
  | VStr s, VStr t => String.eqb s t
  | _, _ => false
  end.

(** [Array.from(new Set(xs))]: first occurrences, in order. *)
Fixpoint setFrom (seen xs : list value) : list value :=
  match xs with
  | [] => []
  | x :: rest =>
      if existsb (sameValueZero x) seen then setFrom seen rest
      else x :: setFrom (x :: seen) rest
  end.

(** The regular expression [/```json\s*([\s\S]*?)\s*```/]: the text after
    the first [```json] marker, ... *)
Fixpoint stripPrefix (s pre : string) : option string :=
  match pre, s with
  | EmptyString, _ => Some s
  | String c pre', String d s' => if Ascii.eqb c d then stripPrefix s' pre' else None
  | String _ _, EmptyString => None
  end.

Fixpoint findAfter (s pre : string) : option string :=
  match stripPrefix s pre with
  | Some rest => Some rest
  | None => match s with EmptyString => None | String _ s' => findAfter s' pre end
  end.

(** ... [\s*```] matches at the start of [s] ... *)
Definition closes (s : string) : bool := startsWith (trimStart s) "```".

(** ... and the shortest group [([\s\S]*?)] that [\s*```] follows. *)
Fixpoint lazyGroup (s : string) : option string :=
  if closes s then Some ""
  else match s with
       | EmptyString => None
       | String c s' => option_map (String c) (lazyGroup s')
       end.

(** [match[1]] of the first match, if any. *)
Definition fencedGroup (text : string) : option string :=
  match findAfter text "```json" with
  | Some rest => lazyGroup (trimStart rest)
  | None => None
  end.

Record Summary := mkSummary {
  totalIssues : nat;
  criticalIssues : nat;
  filesAnalyzed : nat;
  overallScore : Z;
  recommendations : list value
}.

Record Metrics := mkMetrics {
  cyclomatic : Z;
  cognitive : Z;
  maintainabilityScore : Z;
  debtHours : Z;
  debtIssues : nat;
  linesTotal : nat;
  linesSource : Z;
  linesComments : Z;
  linesBlank : Z
}.

Record Result := mkResult {
  summary : Summary;
  issues : list value;
  metrics : Metrics;
  processing_time : Z;
  rawResults : list string
}.

(** The accumulators of the [forEach] loop. *)
Record Acc := mkAcc {
  allIssues : list value;
  allRecommendations : list value;
  totalQualityScore : Q;
  validQualityScores : nat
}.

(** [x && Array.isArray(x)] on a property of a parsed analysis. *)
Definition arrayField (p : value) (key : string) : list value :=
  match field p key with Some (VArr xs) => xs | _ => [] end.

Definition collect (acc : Acc) (p : value) : Acc :=
  if truthy p then
    mkAcc (allIssues acc ++ arrayField p "issues")
      (allRecommendations acc ++ arrayField p "recommendations")
      (match field p "quality_score" with
       | Some (VNum q) => totalQualityScore acc + q
       | _ => totalQualityScore acc
       end)
      (match field p "quality_score" with
       | Some (VNum _) => S (validQualityScores acc)
       | _ => validQualityScores acc
       end)
  else acc.

Definition aggregate (parsed : list value) : Acc :=
  fold_left collect parsed (mkAcc [] [] 0 0%nat).

(** The [filter] callback: [issue.severity] throws on [null], and
    [.toLowerCase()] on a truthy severity that is not a string. *)
Definition isCritical (issue : value) : outcome bool :=
  match issue with
  | VNull => Err (mkError "Cannot read properties of null (reading 'severity')")
  | _ =>
      let severity := field issue "severity" in
      if truthyOpt severity then
        match severity with
        | Some (VStr s) => Ok (Validation.includesStr ["critical"; "high"] (toLowerCase s))
        | _ => Err (mkError "issue.severity.toLowerCase is not a function")
        end
      else Ok false
  end.

Fixpoint countCritical (issues : list value) : outcome nat :=
  match issues with
  | [] => Ok 0%nat
  | issue :: rest =>
      match isCritical issue with
      | Err e => Err e
      | Ok b =>
          match countCritical rest with
          | Err e => Err e
          | Ok n => Ok (if b then S n else n)
          end
      end
  end.

(** [Math.round(x)] is [Math.floor(x + 0.5)]. *)
Definition mathRound (x : Q) : Z := Qfloor (x + (1 # 2)).

Definition scoreOf (acc : Acc) : Z :=
  if Nat.ltb 0 (validQualityScores acc)
  then mathRound (totalQualityScore acc / inject_Z (Z.of_nat (validQualityScores acc)) * 10)
  else 75.

(** [content.split('\n').length]. *)
Fixpoint countNewlines (s : string) : nat :=
  match s with
  | EmptyString => 0
  | String c s' => if Ascii.eqb c "010"%char then S (countNewlines s') else countNewlines s'
  end.

Definition lineCount (s : string) : nat := S (countNewlines s).

(** [Math.floor(n * c)] for the constants [0.8], [0.5], [0.15] and [0.05], taken
    exactly. *)
Definition floorTimes (n : nat) (c : Q) : Z := Qfloor (inject_Z (Z.of_nat n) * c).

Section Process.
Variable parse : string -> option value.

Definition extractJSONFromAnalysis (analysisText : string) : value :=
  match parse analysisText with
  | Some v => v
  | None =>
      match fencedGroup analysisText with
      | Some g =>
          if String.eqb g "" then VNull
          else match parse (trim g) with Some v => v | None => VNull end
      | None => VNull
      end
  end.

Context {File : Type}.
Variable readFileContent : File -> outcome string.

(** The line-count loop; [None] is a [fileObj] whose [file] is not set.
    A file that cannot be read is skipped. *)
Fixpoint totalLines (files : list (option File)) : nat :=
  match files with
  | [] => 0
  | None :: rest => totalLines rest
  | Some file :: rest =>
      match readFileContent file with
      | Ok content => lineCount content + totalLines rest
      | Err _ => totalLines rest
      end
  end.

(** [processAnalysisResults]; an analysis result is given by its
    [analysis] text. *)
Definition processAnalysisResults (analysisResults : list string) (files : list (option File))
  : outcome Result :=
  let acc := aggregate (map extractJSONFromAnalysis analysisResults) in
  match countCritical (allIssues acc) with
  | Err e => Err e
  | Ok critical =>
      let score := scoreOf acc in
      let n := List.length (allIssues acc) in
      let lines := totalLines files in
      Ok (mkResult
            (mkSummary n critical (List.length files) (Z.max 0 (Z.min 100 score))
               (firstn 5 (setFrom [] (allRecommendations acc))))
            (allIssues acc)
            (mkMetrics (Z.max 1 (Z.of_nat n / 2)) (Z.max 1 (floorTimes n (4 # 5))) score
               (Z.max 1 (floorTimes n (1 # 2))) n
               lines (floorTimes lines (4 # 5)) (floorTimes lines (3 # 20))
               (floorTimes lines (1 # 20)))
            (Z.of_nat (List.length analysisResults) * 1500) analysisResults)
  end.

End Process.

End AnalysisUtils.

(* ------------------------------------------------------------------ *)
(** ** Further concrete inputs *)

Module ExtraFixtures.
Import AnalysisUtils.
Local Open Scope string_scope.

Definition prompt2 (a b : string) : string := a ++ b.
Definition prompt3 (a b c : string) : string := a ++ b ++ c.
Definition reportPrompt (_ : list json) (_ : json) : string := "Generate a report".

Definition geminiUp (_ : Z) (_ : string) : outcome string := Ok "Gemini text".
Definition geminiDown (_ : Z) (_ : string) : outcome string :=
  Err (mkError "503 Service Unavailable").
Definition groqCreate (_ _ _ : string) : outcome (option string) := Ok (Some "Groq text").
Definition groqEmpty (_ _ _ : string) : outcome (option string) := Ok (Some "").
Definition hfFetch (_ _ _ : string) : outcome HuggingFaceService.FetchResponse :=
  Ok (HuggingFaceService.mkResponse true "OK" (Ok (Some "HF text"))).
Definition hfUnavailable (_ _ _ : string) : outcome HuggingFaceService.FetchResponse :=
  Ok (HuggingFaceService.mkResponse false "Service Unavailable" (Ok None)).

(** The backend loaded with fixed remote services. *)
Definition loadWith (generateContent : Z -> string -> outcome string) (env : Backend.Env)
  : outcome (list ProviderConfiguration) :=
  Backend.load generateContent prompt3 prompt2 prompt3 reportPrompt groqCreate prompt3 prompt2
    prompt3 hfFetch prompt2 prompt2 prompt3 env.

Definition loaded (generateContent : Z -> string -> outcome string) (env : Backend.Env)
  : list ProviderConfiguration :=
  match loadWith generateContent env with Ok ps => ps | Err _ => [] end.

Definition geminiKeyOnly : Backend.Env := Backend.mkEnv (Some "gemini-key") None None.

(** The frontend side: files are numbered, file 0 has two lines, file 2
    cannot be read. *)
Definition errorString (_ : json) : string := "[object Object]".
Definition axiosMessage (status : Z) : string := "Request failed with status code 500".
Definition readFiles (n : nat) : outcome string :=
  if Nat.eqb n 2 then Err (mkError "NotReadableError") else Ok ("let a = 1;" ++ String "010" "a;").
Definition readBlank (_ : nat) : outcome string := Ok " ".
Definition postOk (_ : list (string * json)) : Response.t := Response.sendSuccess (JStr "analysis").

(** Parsed analyses. *)
Definition analysis1 : value :=
  VObj [("issues", VArr [VObj [("severity", VStr "HIGH")]; VObj [("severity", VStr "low")];
                         VStr "note"]);
        ("recommendations", VArr [VStr "Add tests"; VStr "Add tests"; VObj []; VObj []]);
        ("quality_score", VNum (15 # 2))].
Definition analysis2 : value := VObj [("issues", VArr [VObj [("severity", VNum (3 # 1))]])].
Definition analysis3 : value := VObj [("recommendations", VArr [VStr "Use const"])].

(** [JSON.parse] on the texts used below. *)
Definition parseText (s : string) : option value :=
  if String.eqb s "{}" then Some (VObj [])
  else if String.eqb s "analysis-1" then Some analysis1
  else if String.eqb s "analysis-2" then Some analysis2
  else if String.eqb s "analysis-3" then Some analysis3
  else None.

End ExtraFixtures.

(* ================================================================== *)
(** * Properties *)

Module OrderFacts.
Import AIService Expected.

Lemma insertByPriority_perm x l : Permutation (insertByPriority x l) (x :: l).
Proof.
  induction l as [|y ys IH]; simpl; [reflexivity|].
  destruct (priority x <=? priority y); [reflexivity|].
  rewrite IH. apply perm_swap.
Qed.

Lemma sortByPriority_perm l : Permutation (sortByPriority l) l.
Proof.
  induction l as [|x xs IH]; simpl; [reflexivity|].
  rewrite insertByPriority_perm. now apply perm_skip.
Qed.

Lemma insertByPriority_hd y x l :
  priority y <= priority x -> HdRel prioLe y l -> HdRel prioLe y (insertByPriority x l).
Proof.
  intros Hyx Hhd. destruct l as [|z zs]; simpl.
  - constructor. exact Hyx.
  - destruct (priority x <=? priority z); constructor; [exact Hyx|].
    now inversion Hhd.
Qed.

Lemma insertByPriority_sorted x l :
  Sorted prioLe l -> Sorted prioLe (insertByPriority x l).
Proof.
  induction l as [|y ys IH]; intros Hs; simpl.
  - repeat constructor.
  - destruct (priority x <=? priority y) eqn:E.
    + constructor; [exact Hs|]. constructor. unfold prioLe. now apply Z.leb_le.
    + inversion Hs as [|? ? Hys Hhd]; subst. constructor; [now apply IH|].
      apply insertByPriority_hd; [apply Z.leb_gt in E; unfold prioLe in *; lia|exact Hhd].
Qed.

Lemma sortByPriority_sorted l : Sorted prioLe (sortByPriority l).
Proof.
  induction l as [|x xs IH]; simpl; [constructor|].
  now apply insertByPriority_sorted.
Qed.

Lemma findIndex_cases {A} (f : A -> bool) l :
  (findIndex f l = -1 /\ forall x, In x l -> f x = false) \/
  (exists i x, findIndex f l = Z.of_nat i /\ nth_error l i = Some x /\ f x = true /\
     forall j y, (j < i)%nat -> nth_error l j = Some y -> f y = false).
Proof.
  induction l as [|a l IH]; simpl.
  - left. split; [reflexivity|tauto].
  - destruct (f a) eqn:Fa.
    + right. exists O, a. repeat split; auto. intros j y Hj. lia.
    + destruct IH as [[H1 H2]|[i [x [H1 [H2 [H3 H4]]]]]].
      * left. rewrite H1. split; [reflexivity|]. intros x [<-|Hx]; auto.
      * right. exists (S i), x. rewrite H1.
        replace (Z.of_nat i =? -1) with false by (symmetry; apply Z.eqb_neq; lia).
        split; [lia|]. split; [exact H2|]. split; [exact H3|].
        intros [|j] y Hj Hy; simpl in Hy.
        -- now injection Hy as <-.
        -- apply (H4 j y); [lia|exact Hy].
Qed.

Lemma splice_split {A} (l : list A) i p :
  nth_error l i = Some p -> l = firstn i l ++ p :: skipn (S i) l.
Proof.
  revert i. induction l as [|a l IH]; intros [|i] H; simpl in *; try discriminate.
  - now injection H as ->.
  - f_equal. now apply IH.
Qed.

Lemma splice_perm {A} (l : list A) i p :
  nth_error l i = Some p -> Permutation (p :: firstn i l ++ skipn (S i) l) l.
Proof.
  intros H. transitivity (firstn i l ++ p :: skipn (S i) l).
  - apply Permutation_middle.
  - now rewrite <- (splice_split l i p H).
Qed.

End OrderFacts.

Module OrderClaims.
Import AIService OrderFacts Expected.
Local Open Scope string_scope.

Lemma attemptOrder_shape providers preferredProvider :
  let sorted := getAvailableProviders providers in
  attemptOrder providers preferredProvider = sorted \/
  exists pp i p, preferredProvider = Some pp /\ nth_error sorted i = Some p /\
    attemptOrder providers preferredProvider = p :: firstn i sorted ++ skipn (S i) sorted.
Proof.
  simpl. unfold attemptOrder.
  destruct preferredProvider as [pp|]; [|now left].
  destruct (truthy (Some pp) && negb (pp =? "auto")); [|now left].
  destruct (findIndex_cases
              (fun p => toLowerCase (name p) =? toLowerCase pp)
              (getAvailableProviders providers))
    as [[H1 _]|[i [x [H1 [H2 _]]]]]; rewrite H1.
  - now left.
  - replace (Z.of_nat i >? -1) with true by (symmetry; apply Z.gtb_lt; lia).
    rewrite Nat2Z.id, H2. right. now exists pp, i, x.
Qed.

Lemma attemptOrder_perm providers preferredProvider :
  Permutation (attemptOrder providers preferredProvider) (filter isListed providers).
Proof.
  destruct (attemptOrder_shape providers preferredProvider)
    as [->|[pp [i [p [_ [Hn ->]]]]]].
  - apply sortByPriority_perm.
  - rewrite (splice_perm _ _ _ Hn). apply sortByPriority_perm.
Qed.

(** C2 (amended): the attempt order is a permutation of the available
    providers (those whose availability predicate holds); without a
    preference, with the empty string or with ["auto"], it is the list
    sorted ascending by priority; when a non-empty preference matches an available provider's name
    case-insensitively, that (first matching) provider is spliced out of the
    sorted list and put at position 0, the rest keeping their order. *)
Theorem attemptOrder_spec (providers : list ProviderConfiguration)
  (preferredProvider : option string) :
  let available := filter isListed providers in
  let sorted := getAvailableProviders providers in
  Permutation (attemptOrder providers preferredProvider) available /\
  Permutation sorted available /\ Sorted prioLe sorted /\
  ((preferredProvider = None \/ preferredProvider = Some "" \/
    preferredProvider = Some "auto") ->
     attemptOrder providers preferredProvider = sorted) /\
  (forall pp, preferredProvider = Some pp -> pp <> "" -> pp <> "auto" ->
     (exists p, In p available /\ toLowerCase (name p) = toLowerCase pp) ->
     exists i p, nth_error sorted i = Some p /\
       toLowerCase (name p) = toLowerCase pp /\
       (forall j q, (j < i)%nat -> nth_error sorted j = Some q ->
          toLowerCase (name q) <> toLowerCase pp) /\
       attemptOrder providers preferredProvider =
         p :: firstn i sorted ++ skipn (S i) sorted).
Proof.
  simpl. split; [apply attemptOrder_perm|].
  split; [apply sortByPriority_perm|].
  split; [apply sortByPriority_sorted|].
  split.
  - intros [->|[->| ->]]; reflexivity.
  - intros pp -> Hne Hauto [p0 [Hin Hp0]].
    unfold attemptOrder.
    replace (truthy (Some pp) && negb (pp =? "auto")) with true
      by (simpl; apply String.eqb_neq in Hne, Hauto; now rewrite Hne, Hauto).
    destruct (findIndex_cases
                (fun p => toLowerCase (name p) =? toLowerCase pp)
                (getAvailableProviders providers))
      as [[_ H2]|[i [x [H1 [H2 [H3 H4]]]]]].
    + exfalso.
      assert (Hs : In p0 (getAvailableProviders providers)).
      { eapply Permutation_in; [symmetry; apply sortByPriority_perm|exact Hin]. }
      specialize (H2 p0 Hs). simpl in H2. rewrite Hp0, String.eqb_refl in H2.
      discriminate.
    + rewrite H1.
      replace (Z.of_nat i >? -1) with true by (symmetry; apply Z.gtb_lt; lia).
      rewrite Nat2Z.id, H2.
      exists i, x. split; [exact H2|]. split; [now apply String.eqb_eq|].
      split; [|reflexivity].
      intros j q Hj Hq Heq. specialize (H4 j q Hj Hq). simpl in H4.
      rewrite Heq, String.eqb_refl in H4. discriminate.
Qed.

(** C2 (counterexample): the empty preference is falsy for the guard
    [preferredProvider && ...], so a provider named [""] that it matches
    case-insensitively stays at position 1. *)
Lemma empty_preference_counterexample :
  let anon := mkProvider "" (Fixtures.fakeService true (Ok "x") None) 2 None in
  In anon (filter isListed [Fixtures.P1; anon]) /\
  toLowerCase (name anon) = toLowerCase "" /\
  map name (attemptOrder [Fixtures.P1; anon] (Some "")) = ["P1"; ""].
Proof.
  split; [simpl; right; left; reflexivity|]. split; reflexivity.
Qed.

End OrderClaims.

Module FallbackClaims.
Import AIService OrderFacts OrderClaims.
Local Open Scope string_scope.

Section Loop.
Context {T : Type}.
Implicit Types (op : ProviderConfiguration -> outcome T) (l : list ProviderConfiguration).

Lemma attemptLoop_first_success op pre q post r lastError :
  (forall p, In p pre -> exists e, op p = Err e) -> op q = Ok r ->
  attemptLoop op (pre ++ q :: post) lastError =
    (Ok (r, name q), (map (fun p => (p, op p)) pre ++ [(q, Ok r)])%list).
Proof.
  revert lastError. induction pre as [|a pre IH]; intros lastError Hpre Hq; simpl.
  - now rewrite Hq.
  - destruct (Hpre a (or_introl eq_refl)) as [e He]. rewrite He.
    rewrite IH by (auto || (intros; apply Hpre; now right)).
    now destruct (isRateLimitMessage (message e)).
Qed.

Lemma first_success_split op l :
  (exists q, In q l /\ exists r, op q = Ok r) ->
  exists pre q post r, l = (pre ++ q :: post)%list /\
    (forall p, In p pre -> exists e, op p = Err e) /\ op q = Ok r.
Proof.
  induction l as [|a l IH]; intros [q [Hin [r Hr]]]; [destruct Hin|].
  destruct (op a) as [ra|ea] eqn:Ea.
  - exists [], a, l, ra. repeat split; auto. intros p [].
  - destruct Hin as [<-|Hin]; [congruence|].
    destruct IH as [pre [q' [post [r' [-> [Hpre Hq']]]]]]; [eauto|].
    exists (a :: pre), q', post, r'. repeat split; auto.
    intros p [<-|Hp]; eauto.
Qed.

Lemma attemptLoop_all_fail op l lastError :
  (forall p, In p l -> exists e, op p = Err e) ->
  map fst (snd (attemptLoop op l lastError)) = l /\
  forall d, l <> [] -> exists e, op (last l d) = Err e /\
    fst (attemptLoop op l lastError) =
      Err (mkError ("All AI providers failed. Last error: " ++ message e)).
Proof.
  revert lastError. induction l as [|a l IH]; intros lastError Hall.
  - split; [reflexivity|]. intros d H; now destruct H.
  - destruct (Hall a (or_introl eq_refl)) as [ea Ea].
    destruct (IH (Some ea)) as [IH1 IH2]; [intros; apply Hall; now right|].
    simpl. rewrite Ea.
    assert (Hloop : forall b : bool,
      (let '(r, tr) := if b then attemptLoop op l (Some ea) else attemptLoop op l (Some ea)
       in (r, (a, Err ea) :: tr)) =
      (fst (attemptLoop op l (Some ea)), (a, Err ea) :: snd (attemptLoop op l (Some ea)))).
    { intros b. destruct b; now destruct (attemptLoop op l (Some ea)). }
    rewrite Hloop. simpl. split; [now rewrite IH1|].
    intros d _. destruct l as [|b l'].
    + exists ea. split; [exact Ea|reflexivity].
    + apply IH2. discriminate.
Qed.

Lemma attemptLoop_trace_in op l lastError p o :
  In (p, o) (snd (attemptLoop op l lastError)) -> In p l.
Proof.
  revert lastError. induction l as [|a l IH]; intros lastError H; simpl in H; [destruct H|].
  destruct (op a) as [r|e].
  - simpl in H. destruct H as [H|[]]. injection H as ->. now left.
  - destruct (isRateLimitMessage (message e));
      destruct (attemptLoop op l (Some e)) as [r tr] eqn:E; simpl in H;
      (destruct H as [H|H]; [injection H as -> _; now left|right]);
      eapply IH; rewrite E; exact H.
Qed.

Lemma attemptLoop_congr op1 op2 l lastError :
  (forall p, In p l -> op1 p = op2 p) ->
  attemptLoop op1 l lastError = attemptLoop op2 l lastError.
Proof.
  revert lastError. induction l as [|a l IH]; intros lastError H; simpl; [reflexivity|].
  rewrite (H a (or_introl eq_refl)).
  destruct (op2 a); [reflexivity|].
  rewrite IH by (intros; apply H; now right). reflexivity.
Qed.

End Loop.

Lemma includes_refl s : includes s s = true.
Proof.
  destruct s as [|c s]; simpl; [reflexivity|].
  assert (Hs : forall t, startsWith t t = true).
  { induction t as [|d t IH]; simpl; [reflexivity|]. now rewrite Ascii.eqb_refl, IH. }
  now rewrite Ascii.eqb_refl, Hs.
Qed.

Lemma includes_app_r a b : includes (a ++ b) b = true.
Proof.
  induction a as [|c a IH]; simpl; [apply includes_refl|].
  rewrite IH. apply orb_true_r.
Qed.

Lemma attemptOrder_listed providers pref p :
  In p (attemptOrder providers pref) -> isListed p = true.
Proof.
  intros H. eapply Permutation_in in H; [|apply attemptOrder_perm].
  now apply filter_In in H.
Qed.

(** C1: if some candidate of the attempt order succeeds, the first
    succeeding candidate [q] is the one whose result and name are returned
    (one [{ result, provider }] pair); exactly the candidates before it,
    which all failed, and [q] itself were invoked, none after it. *)
Theorem executeWithFallback_first_success {T} (providers : list ProviderConfiguration)
  (operation : ProviderConfiguration -> outcome T) (preferredProvider : option string) :
  (exists q, In q (attemptOrder providers preferredProvider) /\
             exists r, operation q = Ok r) ->
  exists pre q post r,
    attemptOrder providers preferredProvider = (pre ++ q :: post)%list /\
    (forall p, In p pre -> exists e, operation p = Err e) /\
    operation q = Ok r /\
    executeWithFallback providers operation preferredProvider =
      (Ok (r, name q), (map (fun p => (p, operation p)) pre ++ [(q, Ok r)])%list).
Proof.
  intros H. destruct (first_success_split operation _ H)
    as [pre [q [post [r [Hsplit [Hpre Hq]]]]]].
  exists pre, q, post, r. repeat split; auto.
  unfold executeWithFallback. rewrite Hsplit.
  now apply attemptLoop_first_success.
Qed.

(** C3: a provider whose availability predicate returns false is not in
    the attempt order whatever the preference, is never invoked, and what
    the operation would do on it has no influence on the outcome (result or
    failure message) nor on the invocations. *)
Theorem unavailable_never_attempted {T} (providers : list ProviderConfiguration)
  (operation : ProviderConfiguration -> outcome T) (preferredProvider : option string)
  (p : ProviderConfiguration) :
  isListed p = false ->
  ~ In p (attemptOrder providers preferredProvider) /\
  (forall o, ~ In (p, o) (snd (executeWithFallback providers operation preferredProvider))) /\
  (forall operation', (forall q, isListed q = true -> operation' q = operation q) ->
     executeWithFallback providers operation' preferredProvider =
     executeWithFallback providers operation preferredProvider).
Proof.
  intros Hoff.
  assert (Hnot : ~ In p (attemptOrder providers preferredProvider)).
  { intros Hin. apply attemptOrder_listed in Hin. congruence. }
  split; [exact Hnot|]. split.
  - intros o Hin. apply Hnot. eapply attemptLoop_trace_in. exact Hin.
  - intros operation' Hagree. unfold executeWithFallback.
    apply attemptLoop_congr. intros q Hq. apply Hagree.
    eapply attemptOrder_listed. exact Hq.
Qed.

(** C4: when every candidate fails, every candidate is invoked once and the
    call fails with one error: ["No AI providers available"] when no
    provider is available, otherwise ["All AI providers failed. Last error: "]
    followed by (so containing) the message of the last candidate's error. *)
Theorem executeWithFallback_exhausted {T} (providers : list ProviderConfiguration)
  (operation : ProviderConfiguration -> outcome T) (preferredProvider : option string) :
  (forall p, In p (attemptOrder providers preferredProvider) ->
     exists e, operation p = Err e) ->
  let order := attemptOrder providers preferredProvider in
  let run := executeWithFallback providers operation preferredProvider in
  map fst (snd run) = order /\
  exists err, fst run = Err err /\
    (filter isListed providers = [] -> message err = "No AI providers available") /\
    (forall d, order <> [] ->
       exists e, operation (last order d) = Err e /\
         message err = "All AI providers failed. Last error: " ++ message e /\
         includes (message err) (message e) = true).
Proof.
  intros Hall order run.
  destruct (attemptLoop_all_fail operation order None Hall) as [H1 H2].
  split; [exact H1|].
  destruct order as [|a l] eqn:Eo.
  - exists (mkError "No AI providers available"). unfold run, executeWithFallback.
    fold order. rewrite Eo. split; [reflexivity|]. split; [reflexivity|].
    intros d H; now destruct H.
  - destruct (H2 a ltac:(discriminate)) as [e [He Hrun]].
    exists (mkError ("All AI providers failed. Last error: " ++ message e)).
    unfold run, executeWithFallback. fold order. rewrite Eo. split; [exact Hrun|].
    split.
    + intros Hnil. exfalso.
      pose proof (attemptOrder_perm providers preferredProvider) as Hp.
      fold order in Hp. rewrite Eo, Hnil in Hp. symmetry in Hp. now apply Permutation_nil_cons in Hp.
    + intros d _. destruct (H2 d ltac:(discriminate)) as [e' [He' Hrun']].
      rewrite Hrun in Hrun'. injection Hrun' as Hm.
      exists e'. split; [exact He'|]. cbn [message]. rewrite Hm.
      split; [reflexivity|apply includes_app_r].
Qed.

End FallbackClaims.

Module FacadeClaims.
Import AIService OrderFacts FallbackClaims Expected.
Local Open Scope string_scope.

(** C6: with the default order split as [pre ++ p2 :: post], where no
    provider of [pre] has the optional [generateReport] and [p2]'s succeeds,
    the report is the one produced by [p2]: each provider of [pre] is one
    failed attempt with the "not supported" error, and nothing after [p2]
    is invoked. *)
Theorem generateReport_skips_unsupported (providers : list ProviderConfiguration)
  (analysisResults : list json) (projectInfo : option json) (now : string)
  (pre post : list ProviderConfiguration) (p2 : ProviderConfiguration)
  (generate : list json -> option json -> outcome string) (r : string) :
  attemptOrder providers None = (pre ++ p2 :: post)%list ->
  (forall p, In p pre -> AIProvider.generateReport (service p) = None) ->
  AIProvider.generateReport (service p2) = Some generate ->
  generate analysisResults projectInfo = Ok r ->
  AIService.generateReport providers analysisResults projectInfo now =
    (Ok (ProcessedAnalysisResult.mk r (name p2) (Metadata.mk "multiple" "report" now)),
     (map (fun p => (p, Err unsupported)) pre ++ [(p2, Ok r)])%list).
Proof.
  intros Horder Hpre Hp2 Hgen.
  unfold AIService.generateReport, executeWithFallback. rewrite Horder.
  rewrite (attemptLoop_first_success _ pre p2 post r).
  - simpl. f_equal. f_equal. apply map_ext_in. intros p Hp.
    unfold reportOperation. now rewrite (Hpre p Hp).
  - intros p Hp. exists unsupported. unfold reportOperation. now rewrite (Hpre p Hp).
  - unfold reportOperation. now rewrite Hp2.
Qed.

(** C7 (counterexample): a successful [POST /report] whose [data] has no
    [analysis] nor [provider] field and whose [data.metadata] has no
    [language] field: the service's result sits under [data.report]. *)
Lemma report_payload_counterexample :
  let resp := fst (AnalysisController.generateReport Fixtures.registry "T1" "T2"
                     [("analysisResults", JArr [JNull])]) in
  Response.status resp = 200 /\
  exists data md, getJ (Response.body resp) "data" = Some data /\
    getJ data "analysis" = None /\ getJ data "provider" = None /\
    getJ data "metadata" = Some md /\ getJ md "language" = None.
Proof.
  split; [reflexivity|].
  eexists; eexists. split; [reflexivity|].
  split; [reflexivity|]. split; [reflexivity|]. split; reflexivity.
Qed.

(** C7 (amended): every [POST /report] answered with status 200 carries
    [{success: true, data: {report: {analysis, provider, metadata:
    {language: "multiple", analysisType: "report", timestamp}},
    metadata: {projectInfo, generatedAt, resultsCount}}}], where [analysis]
    and [provider] are the result and the name returned by the
    orchestration, and [timestamp] is the service wrapper's clock reading. *)
Theorem generateReport_payload (providers : list ProviderConfiguration)
  (now nowController : string) (body : list (string * json)) :
  Response.status (fst (AnalysisController.generateReport providers now nowController body)) = 200 ->
  let projectInfo := match get body "projectInfo" with None => JObj [] | Some v => v end in
  exists results r provider,
    get body "analysisResults" = Some (JArr results) /\ results <> [] /\
    fst (executeWithFallback providers (reportOperation results (Some projectInfo)) None)
      = Ok (r, provider) /\
    Response.body (fst (AnalysisController.generateReport providers now nowController body))
      = reportPayload r provider now nowController projectInfo (length results).
Proof.
  unfold AnalysisController.generateReport. intros H.
  destruct (get body "analysisResults") as [[| | | |[|j js]|]|];
    cbn -[AIService.generateReport executeWithFallback] in H |- *; try discriminate H.
  destruct (AIService.generateReport providers (j :: js)
              (Some match get body "projectInfo" with None => JObj [] | Some v => v end) now)
    as [[rep|e] tr] eqn:E; simpl in H; [|discriminate H].
  unfold AIService.generateReport, envelope in E. revert E.
  destruct (executeWithFallback providers
              (reportOperation (j :: js)
                 (Some match get body "projectInfo" with None => JObj [] | Some v => v end)) None)
    as [[[r provider]|e] tr'] eqn:E2; intros E; [|discriminate E].
  injection E as <- _.
  exists (j :: js), r, provider.
  split; [reflexivity|]. split; [discriminate|]. now rewrite E2.
Qed.

Lemma validateCode_rejects (code : option json) :
  (code = None \/ (forall s, code <> Some (JStr s)) \/
   exists s, code = Some (JStr s) /\ trim s = "") ->
  Validation.validateCode code = Some Validation.codeRequiredMessage.
Proof.
  unfold Validation.validateCode.
  intros [->|[Hns|[s [-> Ht]]]]; [reflexivity| |].
  - destruct (Validation.truthyJ code); [|reflexivity].
    destruct code as [[| | | s | |]|]; try reflexivity. now destruct (Hns s).
  - simpl. destruct (String.eqb s ""); [reflexivity|]. simpl. now rewrite Ht.
Qed.

(** C8: when [code] is missing, not a string, or empty after trimming,
    each of the analyze, explain and improve handlers answers status 400
    with [{success: false, error: "Validation Error", message: "Code is
    required and must be a non-empty string"}], for every registry, and
    invokes no provider. *)
Theorem invalid_code_rejected (body : list (string * json)) :
  let code := get body "code" in
  (code = None \/ (forall s, code <> Some (JStr s)) \/
   exists s, code = Some (JStr s) /\ trim s = "") ->
  forall (providers : list ProviderConfiguration) (now : string) (toTemplateString : json -> string),
    AnalysisController.analyzeCode providers now body = (codeValidationResponse, []) /\
    AnalysisController.explainCode providers now body = (codeValidationResponse, []) /\
    AnalysisController.suggestImprovements providers now toTemplateString body
      = (codeValidationResponse, []).
Proof.
  intros code Hcode providers now toTemplateString.
  pose proof (validateCode_rejects code Hcode) as Hv.
  unfold AnalysisController.analyzeCode, AnalysisController.explainCode,
    AnalysisController.suggestImprovements.
  fold code. rewrite Hv. repeat split.
Qed.

End FacadeClaims.

Module RetryClaims.
Import GeminiService Expected.
Local Open Scope string_scope.

Section Origin.
Context {T : Type}.
Variable operation : Z -> outcome T.
Variable baseDelay : Q.

Lemma retryLoop_origin (m : Z) (fuel : nat) (a : Z) :
  1 <= a <= m -> m < a + Z.of_nat fuel ->
  (forall v, fst (retryLoop operation (inject_Z m) baseDelay fuel a) = Ok v ->
     exists k, a <= k <= m /\ operation k = Ok v) /\
  (forall e, fst (retryLoop operation (inject_Z m) baseDelay fuel a) = Err e ->
     exists k, a <= k <= m /\ operation k = Err e).
Proof.
  revert a. induction fuel as [|fuel IH]; intros a Ha Hfuel; [simpl in Hfuel; lia|].
  simpl.
  replace (Qle_bool (inject_Z a) (inject_Z m)) with true
    by (symmetry; apply (Qle_bool_iff (inject_Z a) (inject_Z m)); rewrite <- Zle_Qle; lia).
  destruct (operation a) as [v|e] eqn:Ea.
  - split; intros w Hw; simpl in Hw; [|discriminate Hw].
    injection Hw as <-. exists a. split; [lia|exact Ea].
  - destruct (Qeq_bool (inject_Z a) (inject_Z m) || negb (isRateLimitError e)) eqn:G.
    + split; intros w Hw; simpl in Hw; [discriminate Hw|].
      injection Hw as <-. exists a. split; [lia|exact Ea].
    + apply orb_false_iff in G as [Gq _].
      assert (Hne : a <> m).
      { intros ->. rewrite (proj2 (Qeq_bool_iff _ _) (Qeq_refl _)) in Gq. discriminate. }
      destruct (IH (a + 1) ltac:(lia) ltac:(lia)) as [IH1 IH2].
      destruct (retryLoop operation (inject_Z m) baseDelay fuel (a + 1)) as [r tr] eqn:R.
      simpl in IH1, IH2 |- *. split.
      * intros v Hv. destruct (IH1 v Hv) as [k [Hk Hop]]. exists k. split; [lia|exact Hop].
      * intros e' He'. destruct (IH2 e' He') as [k [Hk Hop]]. exists k. split; [lia|exact Hop].
Qed.

(** C9 (amended): for an integer [maxRetries >= 1], [retryWithBackoff]
    either returns a value some attempt [k] (with [1 <= k <= maxRetries])
    returned, or rejects with the very error some attempt threw: the throw
    of ["Max retries exceeded"] after the loop is never reached. *)
Theorem retryWithBackoff_integer_origin (maxRetries : Z) :
  1 <= maxRetries ->
  (forall v, fst (retryWithBackoff operation (inject_Z maxRetries) baseDelay) = Ok v ->
     exists k, 1 <= k <= maxRetries /\ operation k = Ok v) /\
  (forall e, fst (retryWithBackoff operation (inject_Z maxRetries) baseDelay) = Err e ->
     exists k, 1 <= k <= maxRetries /\ operation k = Err e).
Proof.
  intros Hm. unfold retryWithBackoff.
  replace (Qfloor (inject_Z maxRetries)) with maxRetries
    by (unfold Qfloor, inject_Z; symmetry; apply Z.div_1_r).
  apply retryLoop_origin; [lia|].
  rewrite Nat2Z.inj_succ, Z2Nat.id; lia.
Qed.

End Origin.

(** C9 (counterexample): [maxRetries = 1.5 >= 1] and every call rejected
    with a 429 error: the second iteration fails the loop test and the
    function throws ["Max retries exceeded"], an error no attempt threw. *)
Lemma retry_fractional_counterexample :
  let operation := fun _ : Z => @Err string (mkError "429 Too Many Requests") in
  (1 <= 3 # 2)%Q /\
  retryWithBackoff operation (3 # 2) 1000 =
    (Err (mkError "Max retries exceeded"), [Attempted 1; Slept 1000]) /\
  (forall k, operation k <> Err (mkError "Max retries exceeded")).
Proof.
  split; [unfold Qle; simpl; lia|]. split; [reflexivity|].
  intros k H. injection H as H. discriminate H.
Qed.

Lemma retry_all_rate_limited {T} (operation : Z -> outcome T) :
  (forall k, 1 <= k <= 3 -> exists e, operation k = Err e /\ isRateLimitError e = true) ->
  exists e3, operation 3 = Err e3 /\
    retryWithBackoff operation 3 1000 = (Err e3, fullBackoffTrace).
Proof.
  intros H.
  destruct (H 1 ltac:(lia)) as [e1 [E1 R1]].
  destruct (H 2 ltac:(lia)) as [e2 [E2 R2]].
  destruct (H 3 ltac:(lia)) as [e3 [E3 R3]].
  exists e3. split; [exact E3|].
  unfold retryWithBackoff. simpl. rewrite E1. simpl. rewrite R1, E2. simpl.
  rewrite R2, E3. reflexivity.
Qed.

Lemma analyzeCodeRun_rate_limited generateContent buildAnalysisPrompt code language analysisType :
  (forall k, exists e, generateContent k (buildAnalysisPrompt code language analysisType) = Err e /\
                       isRateLimitError e = true) ->
  exists e3, generateContent 3 (buildAnalysisPrompt code language analysisType) = Err e3 /\
    analyzeCodeRun generateContent buildAnalysisPrompt code language analysisType =
      (Err (analyzeFailure e3), fullBackoffTrace).
Proof.
  intros H.
  destruct (retry_all_rate_limited
              (fun k => generateContent k (buildAnalysisPrompt code language analysisType)))
    as [e3 [E3 R]]; [intros k _; apply H|].
  exists e3. split; [exact E3|].
  unfold analyzeCodeRun. rewrite R. unfold analyzeFailure.
  now destruct (includes (message e3) "429").
Qed.

(** C5 (counterexample): under repeated 429 errors the sleep right before
    attempt 2 lasts 1000 ms, not [baseDelay * 2^(2-1)] = 2000 ms; only two
    sleeps occur (1000 ms then 2000 ms). *)
Lemma backoff_delay_counterexample :
  let operation := fun _ : Z => @Err string (mkError "429 Too Many Requests") in
  snd (retryWithBackoff operation 3 1000) = fullBackoffTrace /\
  nth_error fullBackoffTrace 1 = Some (Slept 1000) /\
  nth_error fullBackoffTrace 2 = Some (Attempted 2) /\
  Slept 1000 <> Slept (1000 * inject_Z (2 ^ (2 - 1))).
Proof.
  split; [reflexivity|]. split; [reflexivity|]. split; [reflexivity|].
  intros H. injection H as H. discriminate H.
Qed.

(** C5 (amended): with [maxRetries = 3] and [baseDelay = 1000],
    (a) if every call is rejected with an error whose message contains
    "429" or "quota", exactly three calls happen, with a sleep of
    [1000 * 2^(k-1)] ms after failed call [k] for [k = 1, 2] (1000 ms,
    then 2000 ms) and none after the third, whose error is rethrown;
    (b) a rejection without these markers at call [k] is rethrown at once,
    with no further sleep nor call;
    (c) plugged in the registry, the Gemini adapter under such errors
    settles its [analyzeCode] once, and the orchestrator records it as one
    failed attempt, the first one, with no other Gemini attempt after it. *)
Theorem retryWithBackoff_policy :
  (forall {T} (operation : Z -> outcome T),
     (forall k, 1 <= k <= 3 -> exists e, operation k = Err e /\ isRateLimitError e = true) ->
     exists e3, operation 3 = Err e3 /\
       retryWithBackoff operation 3 1000 = (Err e3, fullBackoffTrace)) /\
  (forall {T} (operation : Z -> outcome T) (k : Z) (e : Error),
     1 <= k <= 3 ->
     (forall j, 1 <= j < k -> exists e', operation j = Err e' /\ isRateLimitError e' = true) ->
     operation k = Err e -> isRateLimitError e = false ->
     retryWithBackoff operation 3 1000 =
       (Err e, firstn (2 * Z.to_nat k - 1) fullBackoffTrace)) /\
  (forall generateContent buildAnalysisPrompt explainPrompt improvePrompt reportPrompt
          config self groqService huggingFaceService code language analysisType,
     (forall k, exists e, generateContent k (buildAnalysisPrompt code language analysisType)
                           = Err e /\ isRateLimitError e = true) ->
     let gemini := asProvider generateContent buildAnalysisPrompt explainPrompt improvePrompt
                     reportPrompt config self in
     let run := AIService.executeWithFallback
                  (Registry.providers gemini groqService huggingFaceService)
                  (fun p => AIProvider.analyzeCode (service p) code language analysisType)
                  (Some "auto") in
     exists e3 tr,
       generateContent 3 (buildAnalysisPrompt code language analysisType) = Err e3 /\
       snd run = (mkProvider "Gemini" gemini 1 None, Err (analyzeFailure e3)) :: tr /\
       ~ In "Gemini" (map (fun a => name (fst a)) tr)).
Proof.
  split; [exact @retry_all_rate_limited|]. split.
  - intros T operation k e Hk Hpre Ek Rk.
    assert (Hk' : k = 1 \/ k = 2 \/ k = 3) by lia.
    unfold retryWithBackoff.
    destruct Hk' as [->|[->| ->]]; simpl.
    + rewrite Ek, Rk. reflexivity.
    + destruct (Hpre 1 ltac:(lia)) as [e1 [E1 R1]].
      rewrite E1. simpl. rewrite R1, Ek. simpl. rewrite Rk. reflexivity.
    + destruct (Hpre 1 ltac:(lia)) as [e1 [E1 R1]].
      destruct (Hpre 2 ltac:(lia)) as [e2 [E2 R2]].
      rewrite E1. simpl. rewrite R1, E2. simpl. rewrite R2, Ek. reflexivity.
  - intros generateContent buildAnalysisPrompt explainPrompt improvePrompt reportPrompt
      config self groqService huggingFaceService code language analysisType H gemini run.
    destruct (analyzeCodeRun_rate_limited generateContent buildAnalysisPrompt
                code language analysisType H) as [e3 [E3 Hrun]].
    exists e3.
    set (G := mkProvider "Gemini" gemini 1 None).
    set (op := fun p => AIProvider.analyzeCode (service p) code language analysisType).
    assert (Hop : op G = Err (analyzeFailure e3)).
    { unfold op, G, gemini. simpl. unfold analyzeCode. now rewrite Hrun. }
    set (Gr := mkProvider "Groq" groqService 2
                 (Some (fun _ => AIProvider.isAvailable groqService tt))).
    set (Hf := mkProvider "HuggingFace" huggingFaceService 3 None).
    assert (Horder : exists rest,
              AIService.attemptOrder (Registry.providers gemini groqService huggingFaceService)
                (Some "auto") = G :: rest /\
              forall p, In p rest -> name p <> "Gemini").
    { unfold AIService.attemptOrder, AIService.getAvailableProviders. simpl.
      destruct (AIProvider.isAvailable groqService tt); simpl.
      - exists [Gr; Hf]. split; [reflexivity|].
        intros p [<-|[<-|[]]]; discriminate.
      - exists [Hf]. split; [reflexivity|]. intros p [<-|[]]; discriminate. }
    destruct Horder as [rest [Horder Hrest]].
    unfold run, AIService.executeWithFallback. fold op. rewrite Horder.
    cbn [AIService.attemptLoop]. rewrite Hop.
    exists (snd (AIService.attemptLoop op rest (Some (analyzeFailure e3)))).
    split; [exact E3|].
    destruct (AIService.isRateLimitMessage (message (analyzeFailure e3)));
      destruct (AIService.attemptLoop op rest (Some (analyzeFailure e3))) as [r tr] eqn:R;
      simpl; (split; [reflexivity|]);
      (intros Hin; apply in_map_iff in Hin as [[p o] [Hn Hin]];
       apply (Hrest p); [|exact Hn];
       eapply FallbackClaims.attemptLoop_trace_in; rewrite R; exact Hin).
Qed.

End RetryClaims.

Module GeminiClaims.
Import GeminiService.
Local Open Scope string_scope.

(** C10: a constructed Gemini adapter has a non-empty key and
    [isAvailable()] is [true] (it depends on the read-only [config] alone);
    without a [GEMINI_API_KEY] the constructor throws "Gemini API key is
    required" while [geminiService.ts] loads, so loading [aiService.ts]
    fails; every registry that does load lists Gemini, available. *)
Theorem gemini_never_unavailable (GEMINI_API_KEY : option string)
  generateContent buildAnalysisPrompt explainPrompt improvePrompt reportPrompt
  (groqService huggingFaceService : AIProvider.t) :
  let config := configOfEnv GEMINI_API_KEY in
  let geminiModule := loadModule generateContent buildAnalysisPrompt explainPrompt
                        improvePrompt reportPrompt config in
  (forall self, constructor config = Ok self ->
     apiKey config <> "" /\ isAvailable config self = true) /\
  ((GEMINI_API_KEY = None \/ GEMINI_API_KEY = Some "") ->
     Registry.loadAIService geminiModule groqService huggingFaceService
       = Err (mkError "Gemini API key is required")) /\
  (forall providers,
     Registry.loadAIService geminiModule groqService huggingFaceService = Ok providers ->
     exists p, In p providers /\ name p = "Gemini" /\ AIService.isListed p = true /\
       AIProvider.isAvailable (service p) tt = true).
Proof.
  intros config geminiModule. split; [|split].
  - intros self. unfold constructor, isAvailable.
    destruct (String.eqb (apiKey config) "") eqn:E; [discriminate|].
    intros _. split; [|reflexivity]. intros H. rewrite H in E. discriminate E.
  - intros [->| ->]; reflexivity.
  - intros providers. unfold geminiModule, Registry.loadAIService, loadModule, constructor.
    destruct (String.eqb (apiKey config) "") eqn:E; [discriminate|].
    intros H. injection H as <-.
    eexists. split; [left; reflexivity|]. split; [reflexivity|]. split; [reflexivity|].
    simpl. unfold isAvailable. now rewrite E.
Qed.

End GeminiClaims.

(* ================================================================== *)
(** * The theorems at concrete inputs *)

Module Witnesses.
Import AIService OrderFacts Fixtures.
Local Open Scope string_scope.

Lemma executeWithFallback_first_success_witness :
  exists pre q post r,
    attemptOrder registry None = (pre ++ q :: post)%list /\
    (forall p, In p pre -> exists e, analyzeOp p = Err e) /\
    analyzeOp q = Ok r /\
    executeWithFallback registry analyzeOp None =
      (Ok (r, name q), (map (fun p => (p, analyzeOp p)) pre ++ [(q, Ok r)])%list).
Proof.
  apply (FallbackClaims.executeWithFallback_first_success registry analyzeOp None).
  exists P2. split; [simpl; right; left; reflexivity|].
  exists "from P2". reflexivity.
Defined.

Lemma attemptOrder_spec_witness :
  exists i p, nth_error (getAvailableProviders registry) i = Some p /\
    toLowerCase (name p) = toLowerCase "p3" /\
    (forall j q, (j < i)%nat -> nth_error (getAvailableProviders registry) j = Some q ->
       toLowerCase (name q) <> toLowerCase "p3") /\
    attemptOrder registry (Some "p3") =
      p :: firstn i (getAvailableProviders registry) ++ skipn (S i) (getAvailableProviders registry).
Proof.
  destruct (OrderClaims.attemptOrder_spec registry (Some "p3")) as [_ [_ [_ [_ H]]]].
  apply (H "p3"); [reflexivity|discriminate|discriminate|].
  exists P3. split; [simpl; left; reflexivity|reflexivity].
Defined.

Lemma unavailable_never_attempted_witness :
  isListed P2off = false /\ ~ In P2off (attemptOrder registryP2off (Some "P2")).
Proof.
  split; [reflexivity|].
  apply (proj1 (FallbackClaims.unavailable_never_attempted registryP2off analyzeOp
                  (Some "P2") P2off eq_refl)).
Defined.

Lemma executeWithFallback_exhausted_witness :
  map fst (snd (executeWithFallback [P1; P3] analyzeOp None))
    = attemptOrder [P1; P3] None.
Proof.
  apply (proj1 (FallbackClaims.executeWithFallback_exhausted [P1; P3] analyzeOp None
                  ltac:(simpl; intros p [<-|[<-|[]]]; eexists; reflexivity))).
Defined.

Lemma retryWithBackoff_policy_witness :
  exists e3, (fun _ : Z => @Err string (mkError "429")) 3 = Err e3 /\
    GeminiService.retryWithBackoff (fun _ : Z => @Err string (mkError "429")) 3 1000
      = (Err e3, Expected.fullBackoffTrace).
Proof.
  apply (proj1 RetryClaims.retryWithBackoff_policy).
  intros k _. exists (mkError "429"). split; reflexivity.
Defined.

Lemma generateReport_skips_unsupported_witness :
  AIService.generateReport registry [JNull] None "T" =
    (Ok (ProcessedAnalysisResult.mk "report by P2" "P2" (Metadata.mk "multiple" "report" "T")),
     (map (fun p => (p, Err Expected.unsupported)) [P1] ++ [(P2, Ok "report by P2")])%list).
Proof.
  apply (FacadeClaims.generateReport_skips_unsupported registry [JNull] None "T" [P1] [P3] P2
           (fun _ _ => Ok "report by P2") "report by P2").
  - reflexivity.
  - intros p [<-|[]]. reflexivity.
  - reflexivity.
  - reflexivity.
Defined.

Lemma generateReport_payload_witness :
  exists results r provider,
    get [("analysisResults", JArr [JNull])] "analysisResults" = Some (JArr results) /\
    results <> [] /\
    fst (executeWithFallback registry (reportOperation results (Some (JObj []))) None)
      = Ok (r, provider) /\
    Response.body (fst (AnalysisController.generateReport registry "T1" "T2"
                          [("analysisResults", JArr [JNull])]))
      = Expected.reportPayload r provider "T1" "T2" (JObj []) (length results).
Proof.
  apply (FacadeClaims.generateReport_payload registry "T1" "T2"
           [("analysisResults", JArr [JNull])]).
  reflexivity.
Defined.

Lemma invalid_code_rejected_witness :
  AnalysisController.analyzeCode registry "T" [("code", JStr "   ")]
    = (Expected.codeValidationResponse, []).
Proof.
  apply (FacadeClaims.invalid_code_rejected [("code", JStr "   ")]
           ltac:(right; right; exists "   "; split; reflexivity)
           registry "T" (fun _ => "")).
Defined.

Lemma retryWithBackoff_integer_origin_witness :
  exists k, 1 <= k <= 3 /\ (fun _ : Z => @Err string (mkError "429")) k = Err (mkError "429").
Proof.
  apply (proj2 (RetryClaims.retryWithBackoff_integer_origin
                  (fun _ : Z => @Err string (mkError "429")) 1000 3 ltac:(lia))).
  reflexivity.
Defined.

Lemma gemini_never_unavailable_witness :
  Registry.loadAIService
    (GeminiService.loadModule (fun _ _ => Ok "text") (fun _ _ _ => "") (fun _ _ => "")
       (fun _ _ _ => "") (fun _ _ => "") (GeminiService.configOfEnv None))
    (fakeService false (failing "no key") None) (fakeService true (failing "down") None)
  = Err (mkError "Gemini API key is required").
Proof.
  apply (proj1 (proj2 (GeminiClaims.gemini_never_unavailable None
                         (fun _ _ => Ok "text") (fun _ _ _ => "") (fun _ _ => "")
                         (fun _ _ _ => "") (fun _ _ => "")
                         (fakeService false (failing "no key") None)
                         (fakeService true (failing "down") None)))).
  left. reflexivity.
Defined.

End Witnesses.

(* ================================================================== *)
(** * Further properties of the code *)

Module ValidationFacts.
Import Validation.
Local Open Scope string_scope.

Lemma lowerAscii_idem c : lowerAscii (lowerAscii c) = lowerAscii c.
Proof.
  destruct c as [b0 b1 b2 b3 b4 b5 b6 b7].
  destruct b0, b1, b2, b3, b4, b5, b6, b7; reflexivity.
Qed.

Lemma toLowerCase_idem s : toLowerCase (toLowerCase s) = toLowerCase s.
Proof. induction s as [|c s IH]; simpl; [reflexivity|]. now rewrite lowerAscii_idem, IH. Qed.

Lemma includesStr_In l s : includesStr l s = true -> In s l.
Proof.
  unfold includesStr. intros H. apply existsb_exists in H as [x [Hx E]].
  apply String.eqb_eq in E. now subst.
Qed.

Lemma trim_empty_length s : String.length (trim s) = 0%nat <-> trim s = "".
Proof. destruct (trim s); simpl; split; congruence. Qed.

(** X1: [validateAnalysisResults] accepts exactly the arrays of 1 to 50
    elements; anything else (missing, not an array, empty, longer) gets a
    message. *)
Theorem validateAnalysisResults_accepts (results : option json) :
  ResultsValidation.validateAnalysisResults results = None <->
  exists xs, results = Some (JArr xs) /\ (1 <= List.length xs <= 50)%nat.
Proof.
  unfold ResultsValidation.validateAnalysisResults.
  destruct results as [[| | | | xs |]|];
    try (split; [discriminate|intros [xs' [H _]]; discriminate]).
  simpl. split.
  - intros H. exists xs. split; [reflexivity|].
    destruct (Nat.eqb (List.length xs) 0) eqn:E0; [discriminate|].
    destruct (Z.ltb 50 (Z.of_nat (List.length xs))) eqn:E1; [discriminate|].
    apply Nat.eqb_neq in E0. apply Z.ltb_ge in E1. lia.
  - intros [xs' [H Hl]]. injection H as <-.
    replace (Nat.eqb (List.length xs) 0) with false by (symmetry; apply Nat.eqb_neq; lia).
    replace (Z.ltb 50 (Z.of_nat (List.length xs))) with false by (symmetry; apply Z.ltb_ge; lia).
    reflexivity.
Qed.

(** X2: [validateCode] returns [null] exactly for a string that is not
    blank after trimming and has at most 2000000 characters. *)
Theorem validateCode_accepts (code : option json) :
  validateCode code = None <->
  exists s, code = Some (JStr s) /\ trim s <> "" /\ Z.of_nat (String.length s) <= 2000000.
Proof.
  unfold validateCode.
  destruct code as [[| b | n | s | xs | fs]|];
    [| destruct b | unfold truthyJ; destruct (Z.eqb n 0) | | | |];
    try (simpl; split; [discriminate|intros [s' [H _]]; discriminate]).
  simpl. split.
  - intros H. exists s. split; [reflexivity|].
    destruct (String.eqb s "") eqn:Es; [discriminate|]. simpl in H.
    destruct (Nat.eqb (String.length (trim s)) 0) eqn:Et; [discriminate|].
    destruct (Z.ltb 2000000 (Z.of_nat (String.length s))) eqn:El; [discriminate|].
    apply Nat.eqb_neq in Et. apply Z.ltb_ge in El. split; [|lia].
    intros Ht. apply Et. now apply trim_empty_length.
  - intros [s' [H [Ht Hl]]]. injection H as <-.
    destruct (String.eqb s "") eqn:Es.
    + apply String.eqb_eq in Es. subst. now destruct Ht.
    + simpl.
      replace (Nat.eqb (String.length (trim s)) 0) with false
        by (symmetry; apply Nat.eqb_neq; rewrite trim_empty_length; exact Ht).
      replace (Z.ltb 2000000 (Z.of_nat (String.length s))) with false
        by (symmetry; apply Z.ltb_ge; lia).
      reflexivity.
Qed.

Lemma validateLanguage_in (language : option json) :
  In (validateLanguage language) supportedLanguages.
Proof.
  unfold validateLanguage.
  destruct (negb (truthyJ language)); [simpl; tauto|].
  destruct (typeofString language) as [s|]; [|simpl; tauto].
  destruct (includesStr supportedLanguages (toLowerCase s)) eqn:E; [|simpl; tauto].
  now apply includesStr_In.
Qed.

(** X3: the language [validateLanguage] returns is always one of the 20
    supported languages. *)
Theorem validateLanguage_supported (language : option json) :
  In (validateLanguage language) supportedLanguages.
Proof. apply validateLanguage_in. Qed.

(** X4: [validateLanguage] is idempotent: validating the language it
    returned gives the same language back. *)
Theorem validateLanguage_idempotent (language : option json) :
  validateLanguage (Some (JStr (validateLanguage language))) = validateLanguage language.
Proof.
  pose proof (validateLanguage_in language) as H. revert H.
  generalize (validateLanguage language). intros r H. simpl in H.
  repeat (destruct H as [<-|H]; [reflexivity|]). destruct H.
Qed.

(** X5: [validateLanguage] ignores case: a string and its lower-case
    form validate to the same language. *)
Theorem validateLanguage_case_insensitive (s : string) :
  validateLanguage (Some (JStr s)) = validateLanguage (Some (JStr (toLowerCase s))).
Proof.
  unfold validateLanguage. destruct s as [|c s]; [reflexivity|].
  cbn -[toLowerCase includesStr supportedLanguages].
  rewrite toLowerCase_idem. reflexivity.
Qed.

(** X6: [validateAnalysisType] and [validateProviderType] always return a
    member of their list of valid values, and return such a member
    unchanged. *)
Theorem validate_types_closed (v : option json) :
  In (validateAnalysisType v) ["general"; "security"; "performance"; "maintainability"] /\
  validateAnalysisType (Some (JStr (validateAnalysisType v))) = validateAnalysisType v /\
  In (validateProviderType v) ["gemini"; "groq"; "huggingface"; "auto"] /\
  validateProviderType (Some (JStr (validateProviderType v))) = validateProviderType v.
Proof.
  assert (Ha : In (validateAnalysisType v) ["general"; "security"; "performance"; "maintainability"]).
  { unfold validateAnalysisType. destruct (typeofString v) as [s|]; [|simpl; tauto].
    destruct (includesStr _ s) eqn:E; [now apply includesStr_In|simpl; tauto]. }
  assert (Hp : In (validateProviderType v) ["gemini"; "groq"; "huggingface"; "auto"]).
  { unfold validateProviderType. destruct (typeofString v) as [s|]; [|simpl; tauto].
    destruct (includesStr _ s) eqn:E; [now apply includesStr_In|simpl; tauto]. }
  split; [exact Ha|]. split.
  - revert Ha. generalize (validateAnalysisType v). intros r Ha. simpl in Ha.
    repeat (destruct Ha as [<-|Ha]; [reflexivity|]). destruct Ha.
  - split; [exact Hp|].
    revert Hp. generalize (validateProviderType v). intros r Hp. simpl in Hp.
    repeat (destruct Hp as [<-|Hp]; [reflexivity|]). destruct Hp.
Qed.

End ValidationFacts.

Module BackendFacts.
Import AIService.
Local Open Scope string_scope.

Lemma validateProviderType_in (v : option json) :
  In (Validation.validateProviderType v) ["gemini"; "groq"; "huggingface"; "auto"].
Proof.
  unfold Validation.validateProviderType.
  destruct (Validation.typeofString v) as [s|]; [|simpl; tauto].
  destruct (Validation.includesStr _ s) eqn:E; [now apply ValidationFacts.includesStr_In|simpl; tauto].
Qed.

Lemma registry_listed g q h :
  map name (filter isListed (Registry.providers g q h)) =
  ("Gemini" :: (if AIProvider.isAvailable q tt then ["Groq"] else []) ++ ["HuggingFace"])%list.
Proof. simpl. now destruct (AIProvider.isAvailable q tt). Qed.

Lemma registry_names g q h :
  getAvailableProviderNames (Registry.providers g q h) =
  ("Gemini" :: (if AIProvider.isAvailable q tt then ["Groq"] else []) ++ ["HuggingFace"])%list.
Proof.
  unfold getAvailableProviderNames, getAvailableProviders. simpl.
  now destruct (AIProvider.isAvailable q tt).
Qed.

Lemma registry_order g q h pv :
  In pv ["gemini"; "groq"; "huggingface"; "auto"] ->
  map name (attemptOrder (Registry.providers g q h) (Some pv)) =
  (let groq := if AIProvider.isAvailable q tt then ["Groq"] else [] in
   if String.eqb pv "huggingface" then "HuggingFace" :: "Gemini" :: groq
   else if String.eqb pv "groq" && AIProvider.isAvailable q tt
        then ["Groq"; "Gemini"; "HuggingFace"]
        else "Gemini" :: groq ++ ["HuggingFace"])%list.
Proof.
  intros H. simpl in H.
  repeat (destruct H as [<-|H]; [unfold attemptOrder, getAvailableProviders; simpl;
                                  destruct (AIProvider.isAvailable q tt); reflexivity|]).
  destruct H.
Qed.

Lemma attemptLoop_head {T} (op : ProviderConfiguration -> outcome T) l lastError :
  option_map (fun a => name (fst a)) (hd_error (snd (attemptLoop op l lastError))) =
  option_map name (hd_error l).
Proof.
  destruct l as [|p l]; simpl; [reflexivity|].
  destruct (op p) as [r|e]; [reflexivity|].
  destruct (isRateLimitMessage (message e)); destruct (attemptLoop op l (Some e)); reflexivity.
Qed.

Lemma attemptLoop_ok_origin {T} (op : ProviderConfiguration -> outcome T) l lastError v n :
  fst (attemptLoop op l lastError) = Ok (v, n) ->
  exists p, In p l /\ op p = Ok v /\ n = name p.
Proof.
  revert lastError. induction l as [|p l IH]; intros lastError H; simpl in H; [discriminate|].
  destruct (op p) as [r|e] eqn:Ep.
  - simpl in H. injection H as <- <-. exists p. split; [now left|auto].
  - destruct (isRateLimitMessage (message e)); destruct (attemptLoop op l (Some e)) as [r tr] eqn:E;
      simpl in H; destruct (IH (Some e)) as [p' [Hin [Hop Hn]]]; try (rewrite E; exact H);
      exists p'; (split; [now right|auto]).
Qed.

Lemma attemptLoop_err_nonempty {T} (op : ProviderConfiguration -> outcome T) l lastError e :
  fst (attemptLoop op l lastError) = Err e -> message e <> "".
Proof.
  revert lastError. induction l as [|p l IH]; intros lastError H; simpl in H.
  - injection H as <-. destruct lastError; simpl; discriminate.
  - destruct (op p) as [r|e'] eqn:Ep; [discriminate|].
    destruct (isRateLimitMessage (message e')); destruct (attemptLoop op l (Some e')) as [r tr] eqn:E;
      simpl in H; apply (IH (Some e')); rewrite E; exact H.
Qed.

Lemma orString_nonempty v d : d <> "" -> orString v d <> "".
Proof.
  intros Hd. destruct v as [s|]; simpl; [|exact Hd].
  destruct (String.eqb s "") eqn:E; [exact Hd|]. intros ->. discriminate.
Qed.

Lemma attemptOrder_in_providers providers pref p :
  In p (attemptOrder providers pref) -> In p providers /\ isListed p = true.
Proof.
  intros H. eapply Permutation_in in H; [|apply OrderClaims.attemptOrder_perm].
  now apply filter_In in H.
Qed.

(** X7: in the backend's registry, Gemini and HuggingFace are candidates
    for every preference (HuggingFace has no availability check), and Groq
    is a candidate exactly when its adapter reports itself available. *)
Theorem registry_candidates (g q h : AIProvider.t) (pref : option string) :
  let names := map name (attemptOrder (Registry.providers g q h) pref) in
  In "Gemini" names /\ In "HuggingFace" names /\
  (In "Groq" names <-> AIProvider.isAvailable q tt = true).
Proof.
  intros names.
  assert (Hp : Permutation names (map name (filter isListed (Registry.providers g q h)))).
  { apply Permutation_map. apply OrderClaims.attemptOrder_perm. }
  rewrite registry_listed in Hp.
  assert (Hin : forall x, In x names <-> In x ("Gemini" :: (if AIProvider.isAvailable q tt then ["Groq"] else []) ++ ["HuggingFace"])%list).
  { intros x. split; intros Hx; [eapply Permutation_in; eauto|eapply Permutation_in; [symmetry; exact Hp|exact Hx]]. }
  rewrite !Hin. destruct (AIProvider.isAvailable q tt); simpl; intuition discriminate.
Qed.

(** X8: for each value [validateProviderType] can produce, the attempt
    order of the backend's registry: the named provider first when it is
    available, then the others by priority (Gemini, Groq, HuggingFace). *)
Theorem registry_attempt_order (g q h : AIProvider.t) (pv : string) :
  In pv ["gemini"; "groq"; "huggingface"; "auto"] ->
  map name (attemptOrder (Registry.providers g q h) (Some pv)) =
  (let groq := if AIProvider.isAvailable q tt then ["Groq"] else [] in
   if String.eqb pv "huggingface" then "HuggingFace" :: "Gemini" :: groq
   else if String.eqb pv "groq" && AIProvider.isAvailable q tt
        then ["Groq"; "Gemini"; "HuggingFace"]
        else "Gemini" :: groq ++ ["HuggingFace"])%list.
Proof. apply registry_order. Qed.

(** X9: when [POST /analyze] gets a valid [code], the first provider the
    backend's registry invokes is HuggingFace if the body asks for
    "huggingface", Groq if it asks for "groq" and Groq is available, and
    Gemini otherwise (any other or missing [preferredProvider], including a
    differently cased name). *)
Theorem analyze_first_candidate (g q h : AIProvider.t) (now : string)
  (body : list (string * json)) (c : string) :
  get body "code" = Some (JStr c) -> Validation.validateCode (Some (JStr c)) = None ->
  option_map (fun a => name (fst a))
    (hd_error (snd (AnalysisController.analyzeCode (Registry.providers g q h) now body))) =
  Some (let pv := Validation.validateProviderType (get body "preferredProvider") in
        if String.eqb pv "huggingface" then "HuggingFace"
        else if String.eqb pv "groq" && AIProvider.isAvailable q tt then "Groq"
        else "Gemini").
Proof.
  intros Hc Hv. unfold AnalysisController.analyzeCode. rewrite Hc, Hv.
  unfold AnalysisController.reply, AIService.analyzeCode, envelope, executeWithFallback. simpl withDefault.
  set (pv := Validation.validateProviderType (get body "preferredProvider")).
  set (op := fun provider : ProviderConfiguration => _).
  transitivity (option_map (fun a => name (fst a))
                  (hd_error (snd (attemptLoop op (attemptOrder (Registry.providers g q h) (Some pv)) None)))).
  { destruct (attemptLoop _ _ _) as [[[a p]|e] tr]; reflexivity. }
  rewrite attemptLoop_head.
  replace (option_map name (hd_error (attemptOrder (Registry.providers g q h) (Some pv))))
    with (hd_error (map name (attemptOrder (Registry.providers g q h) (Some pv))))
    by (destruct (attemptOrder _ _); reflexivity).
  rewrite (registry_order g q h pv (validateProviderType_in _)).
  destruct (String.eqb pv "huggingface"); [reflexivity|].
  destruct (String.eqb pv "groq" && AIProvider.isAvailable q tt); [reflexivity|].
  now destruct (AIProvider.isAvailable q tt).
Qed.

End BackendFacts.

Module AdapterFacts.
Import BackendFacts.
Local Open Scope string_scope.

(** X10: a Groq service constructed without a (truthy) [GROQ_API_KEY]
    reports itself unavailable, and each of its operations rejects with
    "Groq client not initialized - missing API key" without sending any
    request. *)
Theorem groq_without_key (GROQ_API_KEY : option string) :
  AIService.truthy GROQ_API_KEY = false ->
  let self := GroqService.constructor GROQ_API_KEY in
  GroqService.isAvailable self = false /\
  forall create buildAnalysisPrompt explainPrompt improvePrompt code language x,
    GroqService.analyzeCode create buildAnalysisPrompt self code language x
      = Err GroqService.notInitialized /\
    GroqService.explainCode create explainPrompt self code language
      = Err GroqService.notInitialized /\
    GroqService.suggestImprovements create improvePrompt self code language x
      = Err GroqService.notInitialized.
Proof.
  intros H self. unfold self, GroqService.constructor. simpl. rewrite H. simpl.
  split; [exact H|]. intros. repeat split.
Qed.

(** X11: the Groq and HuggingFace adapters never resolve to the empty
    string: an empty or missing completion is replaced by a fixed text. *)
Theorem adapters_never_resolve_empty :
  (forall create buildAnalysisPrompt self code language x s,
     GroqService.analyzeCode create buildAnalysisPrompt self code language x = Ok s -> s <> "") /\
  (forall create explainPrompt self code language s,
     GroqService.explainCode create explainPrompt self code language = Ok s -> s <> "") /\
  (forall create improvePrompt self code language x s,
     GroqService.suggestImprovements create improvePrompt self code language x = Ok s -> s <> "") /\
  (forall fetch analyzePrompt config code language s,
     HuggingFaceService.analyzeCode fetch analyzePrompt config code language = Ok s -> s <> "") /\
  (forall fetch analyzePrompt explainPrompt config code language s,
     HuggingFaceService.explainCode fetch analyzePrompt explainPrompt config code language = Ok s ->
     s <> "") /\
  (forall fetch analyzePrompt improvePrompt config code language context s,
     HuggingFaceService.suggestImprovements fetch analyzePrompt improvePrompt config code language
       context = Ok s -> s <> "").
Proof.
  assert (Hhf : forall fetch analyzePrompt config code language s,
             HuggingFaceService.analyzeCode fetch analyzePrompt config code language = Ok s -> s <> "").
  { intros fetch analyzePrompt config code language s.
    unfold HuggingFaceService.analyzeCode.
    destruct (fetch _ _ _) as [r|e]; [|discriminate].
    destruct (negb (HuggingFaceService.ok r)); [discriminate|].
    destruct (HuggingFaceService.generatedText r) as [t|e]; [|discriminate].
    intros H. injection H as <-. apply orString_nonempty. discriminate. }
  repeat split; intros *; try apply Hhf;
    [unfold GroqService.analyzeCode| unfold GroqService.explainCode|
     unfold GroqService.suggestImprovements];
    (destruct (GroqService.client self); [|discriminate]);
    (destruct (create _ _ _); [|discriminate]);
    intros H; injection H as <-; apply orString_nonempty; discriminate.
Qed.

(** X12: every rejection of the HuggingFace adapter, including those of
    [explainCode] and [suggestImprovements], which delegate to
    [analyzeCode], carries the prefix "Hugging Face analysis failed: ";
    a non-ok HTTP answer is reported as
    "Hugging Face analysis failed: Hugging Face API error: <statusText>". *)
Theorem huggingface_rejections (fetch : string -> string -> string -> outcome HuggingFaceService.FetchResponse)
  (analyzePrompt explainPrompt : string -> string -> string)
  (improvePrompt : string -> string -> string -> string) (config : HuggingFaceService.Config) :
  (forall code language e,
     HuggingFaceService.analyzeCode fetch analyzePrompt config code language = Err e ->
     exists m, message e = "Hugging Face analysis failed: " ++ m) /\
  (forall code language e,
     HuggingFaceService.explainCode fetch analyzePrompt explainPrompt config code language = Err e ->
     exists m, message e = "Hugging Face analysis failed: " ++ m) /\
  (forall code language context e,
     HuggingFaceService.suggestImprovements fetch analyzePrompt improvePrompt config code language
       context = Err e ->
     exists m, message e = "Hugging Face analysis failed: " ++ m) /\
  (forall code language r,
     fetch (HuggingFaceService.baseUrl config ++ "/" ++ HuggingFaceService.model config)
       (HuggingFaceService.authorization config) (analyzePrompt language code) = Ok r ->
     HuggingFaceService.ok r = false ->
     HuggingFaceService.analyzeCode fetch analyzePrompt config code language =
       Err (mkError ("Hugging Face analysis failed: Hugging Face API error: "
                     ++ HuggingFaceService.statusText r))).
Proof.
  assert (Ha : forall code language e,
             HuggingFaceService.analyzeCode fetch analyzePrompt config code language = Err e ->
             exists m, message e = "Hugging Face analysis failed: " ++ m).
  { intros code language e. unfold HuggingFaceService.analyzeCode. cbv zeta.
    destruct (fetch _ _ _) as [r|e'];
      [destruct (negb (HuggingFaceService.ok r));
       [|destruct (HuggingFaceService.generatedText r) as [t|e']]|];
      try discriminate; intros H; injection H as <-; eexists; reflexivity. }
  split; [exact Ha|]. split; [intros *; apply Ha|]. split; [intros *; apply Ha|].
  intros code language r Hf Hok. unfold HuggingFaceService.analyzeCode. rewrite Hf, Hok.
  reflexivity.
Qed.

End AdapterFacts.

Module ServiceFacts.
Import AIService BackendFacts.
Local Open Scope string_scope.

Lemma envelope_ok language analysisType now r x :
  fst (envelope language analysisType now r) = Ok x ->
  exists v p, fst r = Ok (v, p) /\
    x = ProcessedAnalysisResult.mk v p (Metadata.mk language analysisType now).
Proof.
  destruct r as [[[v p]|e] tr]; simpl; intros H; [|discriminate].
  injection H as <-. now exists v, p.
Qed.

Lemma envelope_snd language analysisType now r :
  snd (envelope language analysisType now r) = snd r.
Proof. now destruct r as [[[v p]|e] tr]. Qed.

Lemma envelope_err language analysisType now r e :
  fst (envelope language analysisType now r) = Err e -> fst r = Err e.
Proof. destruct r as [[[v p]|e'] tr]; simpl; congruence. Qed.

Lemma generateReport_origin providers analysisResults projectInfo now r :
  fst (generateReport providers analysisResults projectInfo now) = Ok r ->
  exists p, In p (attemptOrder providers None) /\
    reportOperation analysisResults projectInfo p = Ok (ProcessedAnalysisResult.analysis r) /\
    ProcessedAnalysisResult.provider r = name p /\
    ProcessedAnalysisResult.metadata r = Metadata.mk "multiple" "report" now.
Proof.
  intros H. apply envelope_ok in H as [v [n [H ->]]].
  apply attemptLoop_ok_origin in H as [p [Hin [Hop ->]]].
  exists p. simpl. auto.
Qed.

(** X15: when [AIService.analyzeCode] resolves, its [provider] is the name
    of a registered provider whose availability check passed, whose
    [analyzeCode] resolved with the returned [analysis] on the request's
    code and the defaulted language and analysis type, and the metadata
    records those defaults and the timestamp. *)
Theorem analyzeCode_result_origin (providers : list ProviderConfiguration)
  (request : AnalysisRequest.t) (now : string) (r : ProcessedAnalysisResult.t) :
  fst (AIService.analyzeCode providers request now) = Ok r ->
  let language := withDefault "javascript" (AnalysisRequest.language request) in
  let analysisType := withDefault "general" (AnalysisRequest.analysisType request) in
  exists p, In p providers /\ isListed p = true /\
    ProcessedAnalysisResult.provider r = name p /\
    AIProvider.analyzeCode (service p) (AnalysisRequest.code request) language analysisType
      = Ok (ProcessedAnalysisResult.analysis r) /\
    ProcessedAnalysisResult.metadata r = Metadata.mk language analysisType now.
Proof.
  unfold AIService.analyzeCode. intros H. apply envelope_ok in H as [v [n [H ->]]].
  apply attemptLoop_ok_origin in H as [p [Hin [Hop ->]]].
  apply attemptOrder_in_providers in Hin as [Hin Hl].
  exists p. simpl. auto.
Qed.

End ServiceFacts.

Module LoadFacts.
Import AIService BackendFacts.
Local Open Scope string_scope.

Lemma groq_isAvailable k : GroqService.isAvailable (GroqService.constructor k) = AIService.truthy k.
Proof.
  unfold GroqService.isAvailable, GroqService.constructor. simpl.
  destruct (AIService.truthy k) eqn:E; simpl; exact E.
Qed.

Section Env.
Variable generateContent : Z -> string -> outcome string.
Variable buildAnalysisPrompt : string -> string -> string -> string.
Variable explainPrompt : string -> string -> string.
Variable improvePrompt : string -> string -> string -> string.
Variable reportPrompt : list json -> json -> string.
Variable create : string -> string -> string -> outcome (option string).
Variable groqAnalysisPrompt : string -> string -> string -> string.
Variable groqExplainPrompt : string -> string -> string.
Variable groqImprovePrompt : string -> string -> string -> string.
Variable fetch : string -> string -> string -> outcome HuggingFaceService.FetchResponse.
Variable hfAnalyzePrompt : string -> string -> string.
Variable hfExplainPrompt : string -> string -> string.
Variable hfImprovePrompt : string -> string -> string -> string.

Let load := Backend.load generateContent buildAnalysisPrompt explainPrompt improvePrompt
  reportPrompt create groqAnalysisPrompt groqExplainPrompt groqImprovePrompt fetch
  hfAnalyzePrompt hfExplainPrompt hfImprovePrompt.

Let gemini := GeminiService.asProvider generateContent buildAnalysisPrompt explainPrompt
  improvePrompt reportPrompt.
Let groq := GroqService.asProvider create groqAnalysisPrompt groqExplainPrompt groqImprovePrompt.
Let hf := HuggingFaceService.asProvider fetch hfAnalyzePrompt hfExplainPrompt hfImprovePrompt.

Lemma load_cases env :
  (AIService.truthy (Backend.GEMINI_API_KEY env) = false /\
   load env = Err (mkError "Gemini API key is required")) \/
  (exists k, Backend.GEMINI_API_KEY env = Some k /\ AIService.truthy (Some k) = true /\
   load env = Ok (Registry.providers
                    (gemini (GeminiService.mkConfig k) (GeminiService.mk k "gemini-2.5-flash"))
                    (groq (GroqService.constructor (Backend.GROQ_API_KEY env)))
                    (hf (HuggingFaceService.configOfEnv (Backend.HUGGINGFACE_API_KEY env))))).
Proof.
  unfold load, Backend.load, Registry.loadAIService, GeminiService.loadModule,
    GeminiService.constructor, GeminiService.configOfEnv.
  destruct (Backend.GEMINI_API_KEY env) as [k|]; [|left; split; reflexivity].
  destruct (String.eqb k "") eqn:E; simpl.
  - left. unfold AIService.truthy. rewrite E. split; reflexivity.
  - right. exists k. unfold AIService.truthy. rewrite E. repeat split.
Qed.

(** X13: loading the backend fails, with "Gemini API key is required",
    exactly when [GEMINI_API_KEY] is unset or empty; otherwise it builds
    the three-entry registry. *)
Theorem backend_requires_gemini_key (env : Backend.Env) :
  (load env = Err (mkError "Gemini API key is required") <->
   AIService.truthy (Backend.GEMINI_API_KEY env) = false) /\
  (AIService.truthy (Backend.GEMINI_API_KEY env) = true ->
   exists providers, load env = Ok providers /\ map name providers = ["Gemini"; "Groq"; "HuggingFace"]).
Proof.
  destruct (load_cases env) as [[H1 H2]|[k [Hk [H1 H2]]]]; rewrite H2.
  - split; [tauto|]. congruence.
  - rewrite Hk, H1. split; [split; discriminate|]. intros _. eexists. split; reflexivity.
Qed.

(** X14: [GET /status] of a loaded backend lists Gemini, then Groq when
    [GROQ_API_KEY] is set, then HuggingFace, even when
    [HUGGINGFACE_API_KEY] is unset and [provider_configs.huggingface] is
    false. *)
Theorem provider_status_of_env (env : Backend.Env) (providers : list ProviderConfiguration) :
  load env = Ok providers ->
  StatusController.getProviderStatus providers env =
  Response.sendSuccess
    (JObj [ ("available_providers",
             JArr (map JStr ("Gemini" :: (if AIService.truthy (Backend.GROQ_API_KEY env)
                                          then ["Groq"] else []) ++ ["HuggingFace"])%list));
            ("provider_configs",
             JObj [ ("gemini", JBool true);
                    ("groq", JBool (AIService.truthy (Backend.GROQ_API_KEY env)));
                    ("huggingface", JBool (AIService.truthy (Backend.HUGGINGFACE_API_KEY env))) ]) ]).
Proof.
  intros H. destruct (load_cases env) as [[H1 H2]|[k [Hk [H1 H2]]]]; rewrite H2 in H; [discriminate|].
  injection H as <-. unfold StatusController.getProviderStatus. rewrite registry_names.
  rewrite Hk, H1. unfold groq. simpl AIProvider.isAvailable.
  rewrite groq_isAvailable. reflexivity.
Qed.

Lemma registry_default_order g q h :
  attemptOrder (Registry.providers g q h) None =
  (mkProvider "Gemini" g 1 None ::
   (if AIProvider.isAvailable q tt
    then [mkProvider "Groq" q 2 (Some (fun _ => AIProvider.isAvailable q tt))] else []) ++
   [mkProvider "HuggingFace" h 3 None])%list.
Proof. unfold attemptOrder, getAvailableProviders. simpl. now destruct (AIProvider.isAvailable q tt). Qed.

(** X16: in a loaded backend, a report always comes from Gemini, the only
    adapter with [generateReport]: it is what Gemini's [generateReport]
    resolved to. *)
Theorem backend_report_from_gemini (env : Backend.Env) (providers : list ProviderConfiguration)
  (analysisResults : list json) (projectInfo : option json) (now : string)
  (r : ProcessedAnalysisResult.t) :
  load env = Ok providers ->
  fst (AIService.generateReport providers analysisResults projectInfo now) = Ok r ->
  ProcessedAnalysisResult.provider r = "Gemini" /\
  GeminiService.generateReport generateContent reportPrompt analysisResults projectInfo
    = Ok (ProcessedAnalysisResult.analysis r).
Proof.
  intros H Hr. destruct (load_cases env) as [[H1 H2]|[k [Hk [H1 H2]]]]; rewrite H2 in H; [discriminate|].
  injection H as <-. apply ServiceFacts.generateReport_origin in Hr as [p [Hin [Hop [Hn _]]]].
  rewrite registry_default_order in Hin.
  unfold gemini, groq, hf in Hin.
  destruct (AIProvider.isAvailable _ tt); simpl in Hin;
    repeat (destruct Hin as [Hp|Hin];
            [subst p; cbn [reportOperation service AIProvider.generateReport GeminiService.asProvider
                  GroqService.asProvider HuggingFaceService.asProvider] in Hop;
             first [discriminate Hop | split; [exact Hn|exact Hop]]|]);
    destruct Hin.
Qed.

(** X17: in a loaded backend, when Gemini's [generateReport] rejects, the
    report request fails with "All AI providers failed. Last error: Report
    generation not supported by this provider": Gemini's own error is
    replaced by the one of the last candidate, HuggingFace. *)
Theorem backend_report_failure (env : Backend.Env) (providers : list ProviderConfiguration)
  (analysisResults : list json) (projectInfo : option json) (now : string) :
  load env = Ok providers ->
  (exists e, GeminiService.generateReport generateContent reportPrompt analysisResults projectInfo
               = Err e) ->
  fst (AIService.generateReport providers analysisResults projectInfo now) =
    Err (mkError "All AI providers failed. Last error: Report generation not supported by this provider").
Proof.
  intros H [e He].
  destruct (load_cases env) as [[H1 H2]|[k [Hk [H1 H2]]]]; rewrite H2 in H; [discriminate|].
  injection H as <-. unfold AIService.generateReport, executeWithFallback.
  rewrite registry_default_order.
  destruct (AIProvider.isAvailable _ tt);
  unfold gemini, groq, hf;
  cbn [attemptLoop app reportOperation service AIProvider.generateReport GeminiService.asProvider
       GroqService.asProvider HuggingFaceService.asProvider];
  rewrite He; destruct (isRateLimitMessage (message e)); reflexivity.
Qed.

End Env.

End LoadFacts.

Module ControllerFacts.
Import AIService BackendFacts ServiceFacts.
Local Open Scope string_scope.

Lemma trim_ws w c : isWhiteSpace w = true -> trim (String w c) = trim c.
Proof. intros Hw. unfold trim. simpl trimStart. now rewrite Hw. Qed.

Lemma validateCode_ws w c :
  isWhiteSpace w = true -> Z.of_nat (String.length c) < 2000000 ->
  Validation.validateCode (Some (JStr (String w c))) = Validation.validateCode (Some (JStr c)).
Proof.
  intros Hw Hl. unfold Validation.validateCode. simpl Validation.truthyJ. simpl Validation.typeofString.
  cbv beta iota. rewrite trim_ws by exact Hw. destruct c as [|d c].
  - reflexivity.
  - cbn [String.eqb negb String.length] in *.
    destruct (Nat.eqb _ 0); [reflexivity|].
    replace (Z.ltb 2000000 (Z.of_nat (S (S (String.length c))))) with false
      by (symmetry; apply Z.ltb_ge; lia).
    replace (Z.ltb 2000000 (Z.of_nat (S (String.length c)))) with false
      by (symmetry; apply Z.ltb_ge; lia).
    reflexivity.
Qed.

Lemma validateCode_message v m : Validation.validateCode v = Some m -> m <> "".
Proof.
  unfold Validation.validateCode.
  destruct (negb (Validation.truthyJ v)); [intros H; injection H as <-; discriminate|].
  destruct (Validation.typeofString v) as [s|]; [|intros H; injection H as <-; discriminate].
  destruct (Nat.eqb _ 0); [intros H; injection H as <-; discriminate|].
  destruct (Z.ltb _ _); intros H; [injection H as <-; discriminate|discriminate].
Qed.

Lemma service_error_message (r : outcome (string * string) * list (@attempt string)) l a now e :
  (forall e', fst r = Err e' -> message e' <> "") ->
  fst (envelope l a now r) = Err e -> message e <> "".
Proof. intros H He. apply envelope_err in He. now apply H. Qed.

Lemma mirrors_success fallback errorString axiosMessage d :
  clientMirrors (ApiService.unwrap errorString axiosMessage fallback) (Response.sendSuccess d).
Proof. left. exists d. split; reflexivity. Qed.

Lemma mirrors_error fallback errorString axiosMessage err m st :
  m <> "" -> ApiService.isSuccessStatus st = false ->
  clientMirrors (ApiService.unwrap errorString axiosMessage fallback) (Response.sendError err m st).
Proof.
  intros Hm Hs. right. exists err, m, st. split; [reflexivity|]. split; [exact Hm|].
  unfold ApiService.unwrap. simpl Response.status. rewrite Hs.
  unfold ApiService.interceptorMessage. simpl.
  destruct (String.eqb m "") eqn:E; [apply String.eqb_eq in E; contradiction|reflexivity].
Qed.

Lemma mirrors_reply fallback errorString axiosMessage r :
  (forall e, fst r = Err e -> message e <> "") ->
  clientMirrors (ApiService.unwrap errorString axiosMessage fallback)
    (fst (AnalysisController.reply r)).
Proof.
  destruct r as [[x|e] tr]; intros H; simpl.
  - apply mirrors_success.
  - apply mirrors_error; [now apply H|reflexivity].
Qed.

(** X18: the analyze, explain and improve handlers ignore a leading
    white-space character of [code] (below the size limit): the answer
    and the invocations are those for the code without it. *)
Theorem leading_whitespace_ignored (providers : list ProviderConfiguration)
  (now : string) (toTemplateString : json -> string) (body : list (string * json))
  (w : ascii) (c : string) :
  isWhiteSpace w = true -> Z.of_nat (String.length c) < 2000000 ->
  let padded := ("code", JStr (String w c)) :: body in
  let plain := ("code", JStr c) :: body in
  AnalysisController.analyzeCode providers now padded = AnalysisController.analyzeCode providers now plain /\
  AnalysisController.explainCode providers now padded = AnalysisController.explainCode providers now plain /\
  AnalysisController.suggestImprovements providers now toTemplateString padded =
    AnalysisController.suggestImprovements providers now toTemplateString plain.
Proof.
  intros Hw Hl padded plain.
  unfold padded, plain, AnalysisController.analyzeCode, AnalysisController.explainCode,
    AnalysisController.suggestImprovements.
  cbn [get]. simpl String.eqb. cbv iota.
  rewrite (validateCode_ws w c Hw Hl), (trim_ws w c Hw).
  repeat split.
Qed.

(** X19: a 200 answer of [POST /analyze] carries a [ProcessedAnalysisResult]
    whose language is one of the supported languages, whose analysis type
    is one of the four valid types, and whose timestamp is the service's. *)
Theorem analyze_success_validated (providers : list ProviderConfiguration) (now : string)
  (body : list (string * json)) (d : json) :
  fst (AnalysisController.analyzeCode providers now body) = Response.sendSuccess d ->
  exists r, d = AnalysisController.processedToJson r /\
    In (Metadata.language (ProcessedAnalysisResult.metadata r)) Validation.supportedLanguages /\
    In (Metadata.analysisType (ProcessedAnalysisResult.metadata r))
      ["general"; "security"; "performance"; "maintainability"] /\
    Metadata.timestamp (ProcessedAnalysisResult.metadata r) = now.
Proof.
  unfold AnalysisController.analyzeCode.
  destruct (Validation.validateCode (get body "code")); [simpl; intros H; injection H; discriminate|].
  destruct (get body "code") as [[| | | c | |]|]; try (simpl; intros H; injection H; discriminate).
  unfold AnalysisController.reply.
  destruct (AIService.analyzeCode _ _ _) as [[r|e] tr] eqn:E; simpl;
    intros H; injection H; [|discriminate].
  intros <-. exists r. split; [reflexivity|].
  assert (Hr : fst (AIService.analyzeCode providers
                      (AnalysisRequest.mk (trim c)
                         (Some (Validation.validateLanguage (get body "language")))
                         (Some (Validation.validateAnalysisType (get body "analysisType")))
                         (Some (Validation.validateProviderType (get body "preferredProvider"))))
                      now) = Ok r) by now rewrite E.
  unfold AIService.analyzeCode in Hr. apply envelope_ok in Hr as [v [p [_ ->]]].
  cbn [ProcessedAnalysisResult.metadata Metadata.language Metadata.analysisType
       Metadata.timestamp withDefault AnalysisRequest.language AnalysisRequest.analysisType].
  split; [exact (ValidationFacts.validateLanguage_in _)|]. split; [|reflexivity].
  unfold Validation.validateAnalysisType.
  destruct (Validation.typeofString (get body "analysisType")) as [s|]; [|simpl; tauto].
  destruct (Validation.includesStr _ s) eqn:Es;
    [exact (ValidationFacts.includesStr_In _ _ Es)|simpl; tauto].
Qed.

(** X20: [POST /report] answers 400 with "Analysis results must be
    provided as a non-empty array", invoking no provider, exactly when
    [analysisResults] is not a non-empty array; any non-empty array, of
    any length, goes to the providers and is answered 200 or 500. *)
Theorem report_validation (providers : list ProviderConfiguration) (now nowController : string)
  (body : list (string * json)) :
  (~ (exists x xs, get body "analysisResults" = Some (JArr (x :: xs))) ->
   AnalysisController.generateReport providers now nowController body =
     (Response.sendValidationError "Analysis results must be provided as a non-empty array", [])) /\
  ((exists x xs, get body "analysisResults" = Some (JArr (x :: xs))) ->
   Response.status (fst (AnalysisController.generateReport providers now nowController body)) = 200 \/
   Response.status (fst (AnalysisController.generateReport providers now nowController body)) = 500).
Proof.
  unfold AnalysisController.generateReport. split.
  - intros Hn. destruct (get body "analysisResults") as [[| | | | [|x xs] |]|]; try reflexivity.
    exfalso. apply Hn. eauto.
  - intros [x [xs ->]].
    destruct (AIService.generateReport _ _ _ _) as [[r|e] tr]; simpl; auto.
Qed.

(** X21: the frontend client mirrors every answer of the four POST
    handlers: a 200 answer resolves to its [data], and every other answer
    (400 or 500) rejects with the answer's [message], which is never empty,
    so the client's fallback texts ("Analysis failed", ...) are never used. *)
Theorem client_mirrors_backend (errorString : json -> string) (axiosMessage : Z -> string)
  (providers : list ProviderConfiguration) (now nowController : string)
  (toTemplateString : json -> string) (body : list (string * json)) :
  clientMirrors (ApiService.analyzeCode errorString axiosMessage)
    (fst (AnalysisController.analyzeCode providers now body)) /\
  clientMirrors (ApiService.explainCode errorString axiosMessage)
    (fst (AnalysisController.explainCode providers now body)) /\
  clientMirrors (ApiService.suggestImprovements errorString axiosMessage)
    (fst (AnalysisController.suggestImprovements providers now toTemplateString body)) /\
  clientMirrors (ApiService.generateReport errorString axiosMessage)
    (fst (AnalysisController.generateReport providers now nowController body)).
Proof.
  unfold ApiService.analyzeCode, ApiService.explainCode, ApiService.suggestImprovements,
    ApiService.generateReport, AnalysisController.analyzeCode, AnalysisController.explainCode,
    AnalysisController.suggestImprovements, AnalysisController.generateReport.
  repeat split.
  1-3: destruct (Validation.validateCode (get body "code")) as [m|] eqn:Ev;
    [apply mirrors_error; [eapply validateCode_message; exact Ev|reflexivity]|];
    destruct (get body "code") as [[| | | c | |]|];
    try (apply mirrors_error; [discriminate|reflexivity]);
    apply mirrors_reply; intros e He;
    (eapply service_error_message; [|exact He]);
    intros e' He'; eapply attemptLoop_err_nonempty; exact He'.
  destruct (get body "analysisResults") as [[| | | | [|x xs] |]|];
    try (apply mirrors_error; [discriminate|reflexivity]).
  destruct (AIService.generateReport providers (x :: xs) _ now) as [[r|e] tr] eqn:E.
  - apply mirrors_success.
  - apply mirrors_error; [|reflexivity].
    assert (He : fst (AIService.generateReport providers (x :: xs)
                        (Some match get body "projectInfo" with
                              | Some v => v | None => JObj [] end) now) = Err e) by now rewrite E.
    unfold AIService.generateReport in He. apply envelope_err in He.
    eapply attemptLoop_err_nonempty. exact He.
Qed.

End ControllerFacts.

Module ClientFacts.
Import ApiService.
Local Open Scope string_scope.

Section Files.
Context {File : Type}.
Variable errorString : json -> string.
Variable axiosMessage : Z -> string.
Variable readFileContent : File -> outcome string.
Variable post : list (string * json) -> Response.t.

Lemma analyzeFiles_ok files analysisType preferredProvider results :
  fst (analyzeFiles errorString axiosMessage readFileContent post files analysisType preferredProvider)
    = Ok results ->
  List.length results = List.length files /\
  snd (analyzeFiles errorString axiosMessage readFileContent post files analysisType preferredProvider)
    = map fst files.
Proof.
  revert results. induction files as [|[file language] rest IH]; intros results H; simpl in *.
  - injection H as <-. split; reflexivity.
  - destruct (readFileContent file) as [content|e]; [|discriminate].
    destruct (ApiService.analyzeCode _ _ _) as [analysis|e]; [|discriminate].
    destruct (analyzeFiles _ _ _ _ rest _ _) as [[rs|e] tr] eqn:E; simpl in H; [|discriminate].
    injection H as <-. destruct (IH rs) as [IH1 IH2]; [try rewrite E; reflexivity|].
    try rewrite E in IH2. simpl in IH2. simpl. split; [now rewrite IH1|now rewrite IH2].
Qed.

Lemma analyzeFiles_err files analysisType preferredProvider e :
  fst (analyzeFiles errorString axiosMessage readFileContent post files analysisType preferredProvider)
    = Err e ->
  exists pre file language rest,
    files = (pre ++ (file, language) :: rest)%list /\
    ((readFileContent file = Err e /\
      snd (analyzeFiles errorString axiosMessage readFileContent post files analysisType
             preferredProvider) = map fst pre) \/
     (exists content, readFileContent file = Ok content /\
        ApiService.analyzeCode errorString axiosMessage
          (post (requestBody (mkRequest content (Some language) (Some analysisType)
                                (Some preferredProvider)))) = Err e /\
        snd (analyzeFiles errorString axiosMessage readFileContent post files analysisType
               preferredProvider) = (map fst pre ++ [file])%list)).
Proof.
  induction files as [|[file language] rest IH]; intros H; simpl in H; [discriminate|].
  destruct (readFileContent file) as [content|e'] eqn:Er.
  - destruct (ApiService.analyzeCode _ _ _) as [analysis|e'] eqn:Ea.
    + destruct (analyzeFiles _ _ _ _ rest _ _) as [[rs|e'] tr] eqn:E; simpl in H; [discriminate|].
      injection H as ->. destruct IH as [pre [f [l [post' [-> Hcase]]]]]; [try rewrite E; reflexivity|].
      exists ((file, language) :: pre), f, l, post'. split; [reflexivity|].
      simpl. rewrite Er, Ea. try rewrite E in Hcase. try rewrite E. simpl in Hcase |- *.
      destruct Hcase as [[H1 H2]|[c [H1 [H2 H3]]]]; [left|right].
      * split; [exact H1|]. now rewrite H2.
      * exists c. split; [exact H1|]. split; [exact H2|]. now rewrite H3.
    + injection H as ->. exists [], file, language, rest. split; [reflexivity|].
      right. exists content. simpl. rewrite Er, Ea. auto.
  - injection H as ->. exists [], file, language, rest. split; [reflexivity|].
    left. simpl. rewrite Er. auto.
Qed.

(** X22: when [analyzeMultipleFiles] resolves, it returns one analysis per
    file, and the files were read and posted once each, in order. *)
Theorem analyzeMultipleFiles_ok (files : list (File * string))
  (analysisType preferredProvider : option string) (results : list (option json)) :
  fst (analyzeMultipleFiles errorString axiosMessage readFileContent post files analysisType
         preferredProvider) = Ok results ->
  List.length results = List.length files /\
  snd (analyzeMultipleFiles errorString axiosMessage readFileContent post files analysisType
         preferredProvider) = map fst files.
Proof. apply analyzeFiles_ok. Qed.

(** X23: when [analyzeMultipleFiles] rejects, the error is the one of the
    first file whose read or analysis failed, and no file after it is
    posted (all-or-nothing: the analyses already obtained are dropped). *)
Theorem analyzeMultipleFiles_stops (files : list (File * string))
  (analysisType preferredProvider : option string) (e : Error) :
  fst (analyzeMultipleFiles errorString axiosMessage readFileContent post files analysisType
         preferredProvider) = Err e ->
  let aType := AIService.withDefault "general" analysisType in
  let pProv := AIService.withDefault "auto" preferredProvider in
  exists pre file language rest,
    files = (pre ++ (file, language) :: rest)%list /\
    ((readFileContent file = Err e /\
      snd (analyzeMultipleFiles errorString axiosMessage readFileContent post files analysisType
             preferredProvider) = map fst pre) \/
     (exists content, readFileContent file = Ok content /\
        ApiService.analyzeCode errorString axiosMessage
          (post (requestBody (mkRequest content (Some language) (Some aType) (Some pProv)))) = Err e /\
        snd (analyzeMultipleFiles errorString axiosMessage readFileContent post files analysisType
               preferredProvider) = (map fst pre ++ [file])%list)).
Proof. apply analyzeFiles_err. Qed.

End Files.

(** X24: end to end, when the first file's content is blank, the client's
    [analyzeMultipleFiles] against the backend's [/analyze] handler
    rejects with the handler's validation message, after posting only that
    file. *)
Theorem blank_file_rejected {File : Type} (errorString : json -> string) (axiosMessage : Z -> string)
  (readFileContent : File -> outcome string) (providers : list ProviderConfiguration)
  (now : string) (file : File) (language : string) (rest : list (File * string))
  (analysisType preferredProvider : option string) (content : string) :
  readFileContent file = Ok content -> trim content = "" ->
  analyzeMultipleFiles errorString axiosMessage readFileContent
    (fun body => fst (AnalysisController.analyzeCode providers now body))
    ((file, language) :: rest) analysisType preferredProvider =
  (Err (mkError Validation.codeRequiredMessage), [file]).
Proof.
  intros Hr Ht. unfold analyzeMultipleFiles. simpl analyzeFiles. rewrite Hr.
  unfold AnalysisController.analyzeCode. cbn [requestBody get optField app].
  simpl String.eqb. cbv iota. cbn [ApiService.code].
  rewrite (FacadeClaims.validateCode_rejects (Some (JStr content)))
    by (right; right; exists content; auto).
  reflexivity.
Qed.

End ClientFacts.

Module AnalysisFacts.
Import AnalysisUtils.
Local Open Scope string_scope.

(** ** Strings around a fenced block *)

Definition allWs (w : string) : Prop := forallb isWhiteSpace (list_ascii_of_string w) = true.

Definition startsNonWs (g : string) : Prop :=
  match g with EmptyString => True | String c _ => isWhiteSpace c = false end.

Definition endsNonWs (g : string) : Prop :=
  g = "" \/ exists g' c, g = g' ++ String c "" /\ isWhiteSpace c = false.

Lemma list_ascii_app a b :
  list_ascii_of_string (a ++ b) = (list_ascii_of_string a ++ list_ascii_of_string b)%list.
Proof. induction a as [|c a IH]; simpl; [reflexivity|]. now rewrite IH. Qed.

Lemma string_of_list_app l1 l2 :
  string_of_list_ascii (l1 ++ l2) = string_of_list_ascii l1 ++ string_of_list_ascii l2.
Proof. induction l1 as [|c l1 IH]; simpl; [reflexivity|]. now rewrite IH. Qed.

Lemma string_app_assoc a b c : a ++ (b ++ c) = (a ++ b) ++ c.
Proof. induction a as [|x a IH]; simpl; [reflexivity|]. now rewrite IH. Qed.

Lemma string_app_nil_r a : a ++ "" = a.
Proof. induction a as [|x a IH]; simpl; [reflexivity|]. now rewrite IH. Qed.

Lemma reverse_app a b : reverse (a ++ b) = reverse b ++ reverse a.
Proof.
  unfold reverse. now rewrite list_ascii_app, rev_app_distr, string_of_list_app.
Qed.

Lemma reverse_involutive s : reverse (reverse s) = s.
Proof.
  unfold reverse. rewrite list_ascii_of_string_of_list_ascii, rev_involutive.
  apply string_of_list_ascii_of_string.
Qed.

Lemma reverse_allWs w : allWs w -> allWs (reverse w).
Proof.
  unfold allWs, reverse. rewrite list_ascii_of_string_of_list_ascii.
  rewrite !forallb_forall. intros H x Hx. apply H, in_rev, Hx.
Qed.

Lemma trimStart_allWs w : allWs w -> trimStart w = "".
Proof.
  unfold allWs. induction w as [|c w IH]; simpl; [reflexivity|].
  intros H. apply andb_true_iff in H as [-> H]. now apply IH.
Qed.

Lemma trimStart_app s t : startsNonWs t -> trimStart (s ++ t) = trimStart s ++ t.
Proof.
  intros Ht. induction s as [|c s IH]; simpl.
  - destruct t as [|d t]; simpl in *; [reflexivity|]. now rewrite Ht.
  - now destruct (isWhiteSpace c).
Qed.

Lemma trimStart_idem s : trimStart (trimStart s) = trimStart s.
Proof.
  induction s as [|c s IH]; simpl; [reflexivity|].
  destruct (isWhiteSpace c) eqn:E; [exact IH|]. simpl. now rewrite E.
Qed.

Lemma trimStart_startsNonWs s : startsNonWs (trimStart s).
Proof.
  induction s as [|c s IH]; simpl; [exact I|].
  destruct (isWhiteSpace c) eqn:E; [exact IH|exact E].
Qed.

Lemma trimStart_In c s : In c (list_ascii_of_string (trimStart s)) -> In c (list_ascii_of_string s).
Proof.
  induction s as [|d s IH]; simpl; [tauto|].
  destruct (isWhiteSpace d); simpl; intuition.
Qed.

Lemma trim_trimStart s : trim (trimStart s) = trim s.
Proof. unfold trim. now rewrite trimStart_idem. Qed.

(** A group that begins and ends with non-white space, followed by white
    space, trims to itself. *)
Lemma trim_group g w : startsNonWs g -> endsNonWs g -> allWs w -> trim (g ++ w) = g.
Proof.
  intros Hs He Hw. unfold trim.
  destruct g as [|c g'].
  - simpl. rewrite (trimStart_allWs w Hw). reflexivity.
  - change (String c g' ++ w) with (String c (g' ++ w)).
    cbn [trimStart] in *. rewrite Hs. change (String c (g' ++ w)) with (String c g' ++ w).
    destruct He as [He|[g'' [d [Eg Hd]]]]; [discriminate|].
    rewrite Eg, reverse_app, reverse_app.
    change (reverse (String d "")) with (String d "").
    rewrite trimStart_app by (simpl; exact Hd).
    rewrite (trimStart_allWs (reverse w)) by (apply reverse_allWs, Hw).
    cbn [append]. change (String d (reverse g'')) with (reverse (String d "") ++ reverse g'').
    rewrite <- reverse_app, reverse_involutive. reflexivity.
Qed.

Definition backtick : ascii := "`"%char.

Lemma stripPrefix_app pre r : stripPrefix (pre ++ r) pre = Some r.
Proof. induction pre as [|c pre IH]; simpl; [now destruct r|]. now rewrite Ascii.eqb_refl. Qed.

Lemma findAfter_app pre r :
  ~ In backtick (list_ascii_of_string pre) -> findAfter (pre ++ "```json" ++ r) "```json" = Some r.
Proof.
  induction pre as [|c pre IH]; intros Hp.
  - destruct r; reflexivity.
  - simpl in Hp. cbn [append findAfter stripPrefix].
    replace (Ascii.eqb "`" c) with false
      by (symmetry; apply Ascii.eqb_neq; intros <-; apply Hp; now left).
    apply IH. intros H; apply Hp; now right.
Qed.

Lemma closes_app u post :
  ~ In backtick (list_ascii_of_string u) ->
  closes (u ++ "```" ++ post) = forallb isWhiteSpace (list_ascii_of_string u).
Proof.
  unfold closes. induction u as [|c u IH]; intros Hu; [destruct post; reflexivity|].
  simpl in Hu. cbn [append trimStart list_ascii_of_string forallb].
  destruct (isWhiteSpace c) eqn:Ec.
  - apply IH. intros H; apply Hu; now right.
  - cbn [startsWith andb]. replace (Ascii.eqb "`" c) with false
      by (symmetry; apply Ascii.eqb_neq; intros <-; apply Hu; now left).
    reflexivity.
Qed.

Lemma lazyGroup_eq x :
  lazyGroup x = if closes x then Some ""
                else match x with
                     | EmptyString => None
                     | String c x' => option_map (String c) (lazyGroup x')
                     end.
Proof. destruct x; reflexivity. Qed.

(** The lazy group stops at the white space before the closing fence. *)
Lemma lazyGroup_app u post :
  ~ In backtick (list_ascii_of_string u) ->
  exists g w, u = g ++ w /\ allWs w /\ endsNonWs g /\ lazyGroup (u ++ "```" ++ post) = Some g.
Proof.
  induction u as [|c u IH]; intros Hu.
  - exists "", "". split; [reflexivity|]. split; [reflexivity|].
    split; [now left|destruct post; reflexivity].
  - assert (Hu' : ~ In backtick (list_ascii_of_string u)) by (intros H; apply Hu; now right).
    destruct (IH Hu') as [g [w [Eu [Hw [Hg Hl]]]]].
    rewrite lazyGroup_eq, closes_app by exact Hu.
    change (String c u ++ "```" ++ post) with (String c (u ++ "```" ++ post)).
    cbv iota. cbn [list_ascii_of_string forallb].
    assert (Hc : closes (u ++ "```" ++ post) = true <-> g = "").
    { rewrite lazyGroup_eq in Hl. split.
      - intros Hcl. rewrite Hcl in Hl. congruence.
      - intros ->. destruct (closes (u ++ "```" ++ post)); [reflexivity|].
        destruct (u ++ "```" ++ post) as [|d x]; [discriminate|].
        destruct (lazyGroup x); discriminate. }
    rewrite closes_app in Hc by exact Hu'.
    destruct (isWhiteSpace c) eqn:Ec;
      [destruct (forallb isWhiteSpace (list_ascii_of_string u)) eqn:Ef|]; cbn [andb].
    + exists "", (String c u). split; [reflexivity|].
      split; [unfold allWs; simpl; now rewrite Ec, Ef|]. split; [now left|reflexivity].
    + rewrite Hl. exists (String c g), w. split; [now rewrite Eu|]. split; [exact Hw|].
      split; [|reflexivity]. right.
      destruct Hg as [->|[g' [d [Eg Hd]]]]; [destruct Hc as [_ Hc]; discriminate (Hc eq_refl)|].
      exists (String c g'), d. now rewrite Eg.
    + rewrite Hl. exists (String c g), w. split; [now rewrite Eu|]. split; [exact Hw|].
      split; [|reflexivity]. right.
      destruct Hg as [->|[g' [d [Eg Hd]]]].
      * exists "", c. split; [reflexivity|exact Ec].
      * exists (String c g'), d. now rewrite Eg.
Qed.

(** X25: when the whole text is not JSON, [extractJSONFromAnalysis] parses
    the trimmed content of the first [```json ... ```] block (for a prefix
    and a block without backticks); a blank block gives [null], as does a
    content [JSON.parse] rejects. *)
Theorem extract_fenced_json (parse : string -> option value) (pre body post : string) :
  parse (pre ++ "```json" ++ body ++ "```" ++ post) = None ->
  ~ In backtick (list_ascii_of_string pre) ->
  ~ In backtick (list_ascii_of_string body) ->
  extractJSONFromAnalysis parse (pre ++ "```json" ++ body ++ "```" ++ post) =
  if String.eqb (trim body) "" then VNull
  else match parse (trim body) with Some v => v | None => VNull end.
Proof.
  intros Hp Hpre Hbody. unfold extractJSONFromAnalysis. rewrite Hp.
  unfold fencedGroup. rewrite findAfter_app by exact Hpre.
  rewrite trimStart_app by reflexivity.
  assert (Hu : ~ In backtick (list_ascii_of_string (trimStart body)))
    by (intros H; apply Hbody, trimStart_In, H).
  destruct (lazyGroup_app (trimStart body) post Hu) as [g [w [Eu [Hw [Hg Hl]]]]].
  rewrite Hl.
  assert (Hs : startsNonWs g).
  { pose proof (trimStart_startsNonWs body) as Hs. rewrite Eu in Hs.
    destruct g; [exact I|exact Hs]. }
  assert (Eg : trim body = g) by (rewrite <- trim_trimStart, Eu; now apply trim_group).
  rewrite Eg.
  replace (trim g) with g
    by (symmetry; rewrite <- (string_app_nil_r g) at 1; apply trim_group; auto; reflexivity).
  reflexivity.
Qed.

(** ** The aggregation loop *)

Lemma collect_issues acc p :
  allIssues (collect acc p) = (allIssues acc ++ (if truthy p then arrayField p "issues" else []))%list.
Proof. unfold collect. destruct (truthy p); simpl; [reflexivity|now rewrite app_nil_r]. Qed.

Lemma collect_recommendations acc p :
  allRecommendations (collect acc p) =
  (allRecommendations acc ++ (if truthy p then arrayField p "recommendations" else []))%list.
Proof. unfold collect. destruct (truthy p); simpl; [reflexivity|now rewrite app_nil_r]. Qed.

Lemma fold_issues ps acc x :
  In x (allIssues (fold_left collect ps acc)) <->
  In x (allIssues acc) \/ exists p, In p ps /\ truthy p = true /\ In x (arrayField p "issues").
Proof.
  revert acc. induction ps as [|p ps IH]; intros acc; simpl.
  - split; [now left|intros [H|[p [[] _]]]; exact H].
  - rewrite IH, collect_issues, in_app_iff. split.
    + intros [[H|H]|[p' [Hp' Hx]]].
      * now left.
      * destruct (truthy p) eqn:E; [|destruct H]. right. exists p. auto.
      * right. exists p'. auto.
    + intros [H|[p' [[<-|Hp'] [Ht Hx]]]].
      * now left; left.
      * left; right. now rewrite Ht.
      * right. exists p'. auto.
Qed.

Lemma fold_recommendations ps acc x :
  In x (allRecommendations (fold_left collect ps acc)) ->
  In x (allRecommendations acc) \/
  exists p, In p ps /\ truthy p = true /\ In x (arrayField p "recommendations").
Proof.
  revert acc. induction ps as [|p ps IH]; intros acc; simpl; [now left|].
  intros H. destruct (IH _ H) as [H'|[p' [Hp' Hx]]].
  - rewrite collect_recommendations, in_app_iff in H'. destruct H' as [H'|H'].
    + now left.
    + destruct (truthy p) eqn:E; [|destruct H']. right. exists p. auto.
  - right. exists p'. auto.
Qed.


Definition scoresInScale (acc : Acc) : Prop :=
  (0 <= totalQualityScore acc)%Q /\
  (totalQualityScore acc <= 10 * inject_Z (Z.of_nat (validQualityScores acc)))%Q.

Lemma fold_scores ps acc :
  (forall p q, In p ps -> truthy p = true -> field p "quality_score" = Some (VNum q) ->
     (0 <= q)%Q /\ (q <= 10)%Q) ->
  scoresInScale acc -> scoresInScale (fold_left collect ps acc).
Proof.
  revert acc. induction ps as [|p ps IH]; intros acc H Ha; simpl; [exact Ha|].
  apply IH; [intros p' q Hp; apply H; now right|].
  unfold collect. destruct (truthy p) eqn:E; [|exact Ha]. unfold scoresInScale; simpl.
  destruct (field p "quality_score") as [[| |q| | |]|] eqn:F; try exact Ha.
  destruct (H p q (or_introl eq_refl) E F) as [H0 H10]. destruct Ha as [Ha0 Ha10].
  rewrite Nat2Z.inj_succ, <- Z.add_1_r, inject_Z_plus. change (inject_Z 1) with 1%Q.
  split; lra.
Qed.

Lemma mathRound_range x : (0 <= x)%Q -> (x <= 100)%Q -> (0 <= mathRound x <= 100)%Z.
Proof.
  intros H0 H1. unfold mathRound. split.
  - change 0%Z with (Qfloor 0). apply Qfloor_resp_le. lra.
  - pose proof (Qfloor_le (x + (1 # 2))) as Hf.
    assert (Hq : (inject_Z (Qfloor (x + (1 # 2))) <= 201 # 2)%Q).
    { revert Hf. generalize (inject_Z (Qfloor (x + (1 # 2)))). intros k Hk.
      apply (Qle_trans _ _ _ Hk). lra. }
    revert Hq. generalize (Qfloor (x + (1 # 2))). intros k Hk.
    unfold Qle in Hk. simpl in Hk. lia.
Qed.

Lemma scoreOf_range acc : scoresInScale acc -> (0 <= scoreOf acc <= 100)%Z.
Proof.
  intros [H0 H1]. unfold scoreOf.
  destruct (Nat.ltb 0 (validQualityScores acc)) eqn:E; [|lia].
  apply Nat.ltb_lt in E.
  assert (Hv : (0 < inject_Z (Z.of_nat (validQualityScores acc)))%Q)
    by (unfold Qlt; simpl; lia).
  assert (Ha0 : (0 <= totalQualityScore acc / inject_Z (Z.of_nat (validQualityScores acc)))%Q)
    by (apply Qle_shift_div_l; [exact Hv|lra]).
  assert (Ha1 : (totalQualityScore acc / inject_Z (Z.of_nat (validQualityScores acc)) <= 10)%Q)
    by (apply Qle_shift_div_r; [exact Hv|exact H1]).
  revert Ha0 Ha1.
  generalize (totalQualityScore acc / inject_Z (Z.of_nat (validQualityScores acc)))%Q.
  intros a Ha0 Ha1. apply mathRound_range; lra.
Qed.

(** ** The [filter] callback *)

Lemma isCritical_err issue :
  (exists e, isCritical issue = Err e) <->
  issue = VNull \/
  (truthyOpt (field issue "severity") = true /\ forall s, field issue "severity" <> Some (VStr s)).
Proof.
  unfold isCritical. destruct issue as [|b|q|s|xs|fs].
  - split; [now left|eauto].
  - cbn. split; [intros [e H]; discriminate|intros [H|[H _]]; discriminate].
  - cbn. split; [intros [e H]; discriminate|intros [H|[H _]]; discriminate].
  - cbn. split; [intros [e H]; discriminate|intros [H|[H _]]; discriminate].
  - cbn. split; [intros [e H]; discriminate|intros [H|[H _]]; discriminate].
  - cbn [field]. destruct (lookup fs "severity") as [v|]; cbn [truthyOpt].
    + destruct (truthy v) eqn:Ev.
      * destruct v; split; try (intros; right; split; [reflexivity|congruence]); eauto.
        -- intros [e H]; discriminate.
        -- intros [H|[_ H]]; [discriminate|]. destruct (H s eq_refl).
      * split; [intros [e H]; discriminate|intros [H|[H _]]; discriminate].
    + split; [intros [e H]; discriminate|intros [H|[H _]]; discriminate].
Qed.

Lemma countCritical_err issues :
  (exists e, countCritical issues = Err e) <-> exists issue, In issue issues /\ exists e, isCritical issue = Err e.
Proof.
  induction issues as [|i rest IH]; simpl.
  - split; [intros [e H]; discriminate|intros [x [[] _]]].
  - destruct (isCritical i) as [b|e] eqn:Ei.
    + destruct (countCritical rest) as [n|e] eqn:Er.
      * split; [intros [e H]; discriminate|].
        intros [x [[<-|Hx] He]]; [destruct He as [e He]; congruence|].
        destruct (proj2 IH (ex_intro _ x (conj Hx He))) as [e H]; discriminate.
      * split; [|eauto]. intros _. destruct (proj1 IH (ex_intro _ e eq_refl)) as [x [Hx He]].
        exists x. auto.
    + split; [|eauto]. intros _. exists i. split; [now left|eauto].
Qed.

Lemma countCritical_le issues n : countCritical issues = Ok n -> (n <= List.length issues)%nat.
Proof.
  revert n. induction issues as [|i rest IH]; intros n H; simpl in *.
  - injection H as <-. lia.
  - destruct (isCritical i) as [b|e]; [|discriminate].
    destruct (countCritical rest) as [m|e]; [|discriminate].
    injection H as <-. specialize (IH m eq_refl). destruct b; lia.
Qed.

(** ** Distinct recommendations *)

Lemma sameValueZero_sym a b : sameValueZero a b = sameValueZero b a.
Proof.
  destruct a as [|x|p|s| |], b as [|y|q|t| |]; simpl; try reflexivity.
  - now destruct x, y.
  - destruct (Qeq_bool p q) eqn:E, (Qeq_bool q p) eqn:E'; try reflexivity; exfalso.
    + apply Qeq_bool_iff in E. apply Qeq_sym, Qeq_bool_iff in E. congruence.
    + apply Qeq_bool_iff in E'. apply Qeq_sym, Qeq_bool_iff in E'. congruence.
  - apply String.eqb_sym.
Qed.

Lemma setFrom_In seen xs y :
  In y (setFrom seen xs) -> In y xs /\ existsb (sameValueZero y) seen = false.
Proof.
  revert seen. induction xs as [|x rest IH]; intros seen; simpl; [tauto|].
  destruct (existsb (sameValueZero x) seen) eqn:E.
  - intros H. destruct (IH _ H). auto.
  - intros [<-|H]; [auto|]. destruct (IH _ H) as [Hy Hs]. simpl in Hs.
    apply orb_false_iff in Hs. tauto.
Qed.

Lemma setFrom_distinct seen xs :
  ForallOrdPairs (fun a b => sameValueZero a b = false) (setFrom seen xs).
Proof.
  revert seen. induction xs as [|x rest IH]; intros seen; simpl; [constructor|].
  destruct (existsb (sameValueZero x) seen); [apply IH|].
  constructor; [|apply IH]. apply Forall_forall. intros y Hy.
  destruct (setFrom_In _ _ _ Hy) as [_ Hs]. simpl in Hs. apply orb_false_iff in Hs.
  rewrite sameValueZero_sym. tauto.
Qed.

Lemma In_firstn {A} n (l : list A) x : In x (firstn n l) -> In x l.
Proof. intros H. rewrite <- (firstn_skipn n l). apply in_app_iff. now left. Qed.

Lemma firstn_ordPairs {A} (R : A -> A -> Prop) n l :
  ForallOrdPairs R l -> ForallOrdPairs R (firstn n l).
Proof.
  revert n. induction l as [|x l IH]; intros n H; destruct n; simpl; try constructor.
  inversion H as [|? ? Hx Hl]; subst.
  - apply Forall_forall. intros y Hy. rewrite Forall_forall in Hx. exact (Hx y (In_firstn _ _ _ Hy)).
  - inversion H; subst. now apply IH.
Qed.

(** ** Properties of [processAnalysisResults] *)

Section Results.
Context {File : Type}.
Variable parse : string -> option value.
Variable readFileContent : File -> outcome string.


Lemma process_ok analysisResults files r :
  processAnalysisResults parse readFileContent analysisResults files = Ok r ->
  let acc := aggregate (map (extractJSONFromAnalysis parse) analysisResults) in
  exists critical, countCritical (allIssues acc) = Ok critical /\
  summary r = mkSummary (List.length (allIssues acc)) critical (List.length files)
                (Z.max 0 (Z.min 100 (scoreOf acc)))
                (firstn 5 (setFrom [] (allRecommendations acc))) /\
  issues r = allIssues acc /\
  metrics r = mkMetrics (Z.max 1 (Z.of_nat (List.length (allIssues acc)) / 2))
                (Z.max 1 (floorTimes (List.length (allIssues acc)) (4 # 5))) (scoreOf acc)
                (Z.max 1 (floorTimes (List.length (allIssues acc)) (1 # 2)))
                (List.length (allIssues acc)) (totalLines readFileContent files)
                (floorTimes (totalLines readFileContent files) (4 # 5))
                (floorTimes (totalLines readFileContent files) (3 # 20))
                (floorTimes (totalLines readFileContent files) (1 # 20)).
Proof.
  unfold processAnalysisResults. cbv zeta. intros H.
  destruct (countCritical _) as [critical|e] eqn:E; [|discriminate].
  injection H as <-. exists critical. auto.
Qed.

Lemma scoresInScale_init : scoresInScale (mkAcc [] [] 0 0%nat).
Proof. unfold scoresInScale, Qle; simpl; split; lia. Qed.


(** X27: when every numeric [quality_score] of a parsed analysis lies in
    [0, 10], the unclamped [maintainability.score] already lies in [0, 100]
    and equals [summary.overallScore]. *)
Theorem score_in_scale (analysisResults : list string) (files : list (option File)) (r : Result) :
  (forall t q, In t analysisResults -> truthy (extractJSONFromAnalysis parse t) = true ->
     field (extractJSONFromAnalysis parse t) "quality_score" = Some (VNum q) ->
     (0 <= q)%Q /\ (q <= 10)%Q) ->
  processAnalysisResults parse readFileContent analysisResults files = Ok r ->
  (0 <= maintainabilityScore (metrics r) <= 100)%Z /\
  maintainabilityScore (metrics r) = overallScore (summary r).
Proof.
  intros Hq H. destruct (process_ok _ _ _ H) as [c [_ [Hs [_ Hm]]]].
  rewrite Hs, Hm. cbn [overallScore maintainabilityScore].
  assert (Hr : (0 <= scoreOf (aggregate (map (extractJSONFromAnalysis parse) analysisResults)) <= 100)%Z).
  { apply scoreOf_range. unfold aggregate. apply fold_scores; [|exact scoresInScale_init].
    intros p q Hp. apply in_map_iff in Hp as [t [<- Ht]]. exact (Hq t q Ht). }
  split; lia.
Qed.

(** X28: [summary.recommendations] has at most five entries, no two of
    them equal under SameValueZero, each taken from the [recommendations]
    array of some parsed analysis. *)
Theorem recommendations_distinct (analysisResults : list string) (files : list (option File)) (r : Result) :
  processAnalysisResults parse readFileContent analysisResults files = Ok r ->
  (List.length (recommendations (summary r)) <= 5)%nat /\
  ForallOrdPairs (fun a b => sameValueZero a b = false) (recommendations (summary r)) /\
  (forall x, In x (recommendations (summary r)) ->
     exists t, In t analysisResults /\ truthy (extractJSONFromAnalysis parse t) = true /\
       In x (arrayField (extractJSONFromAnalysis parse t) "recommendations")).
Proof.
  intros H. destruct (process_ok _ _ _ H) as [c [_ [Hs _]]].
  rewrite Hs. cbn [recommendations]. split; [apply firstn_le_length|]. split.
  - apply firstn_ordPairs, setFrom_distinct.
  - intros x Hx. apply In_firstn, setFrom_In in Hx as [Hx _].
    apply fold_recommendations in Hx as [[]|[p [Hp [Ht Hx]]]].
    apply in_map_iff in Hp as [t [<- Hin]]. exists t. auto.
Qed.

(** X29: [processAnalysisResults] rejects exactly when some collected
    issue is [null] or has a truthy [severity] that is not a string; in
    particular a file that cannot be read never makes it reject. *)
Theorem process_rejects_iff (analysisResults : list string) (files : list (option File)) :
  (exists e, processAnalysisResults parse readFileContent analysisResults files = Err e) <->
  exists t issue, In t analysisResults /\ truthy (extractJSONFromAnalysis parse t) = true /\
    In issue (arrayField (extractJSONFromAnalysis parse t) "issues") /\
    (issue = VNull \/
     (truthyOpt (field issue "severity") = true /\ forall s, field issue "severity" <> Some (VStr s))).
Proof.
  assert (Hiff : (exists e, processAnalysisResults parse readFileContent analysisResults files = Err e) <->
                 exists e, countCritical (allIssues (aggregate (map (extractJSONFromAnalysis parse)
                                                               analysisResults))) = Err e).
  { unfold processAnalysisResults. cbv zeta.
    destruct (countCritical _) eqn:E; split; intros [e' H]; try discriminate; eauto. }
  rewrite Hiff, countCritical_err. split.
  - intros [issue [Hin He]]. unfold aggregate in Hin.
    apply fold_issues in Hin as [[]|[p [Hp [Ht Hx]]]].
    apply in_map_iff in Hp as [t [<- Hin]]. exists t, issue.
    split; [exact Hin|]. split; [exact Ht|]. split; [exact Hx|]. now apply isCritical_err.
  - intros [t [issue [Hin [Ht [Hx He]]]]]. exists issue. split.
    + unfold aggregate. apply fold_issues. right. exists (extractJSONFromAnalysis parse t).
      split; [now apply in_map|]. auto.
    + now apply isCritical_err.
Qed.

(** X30: in a resolved result [summary.criticalIssues] is at most
    [summary.totalIssues], [complexity.cyclomatic] lies between 1 and
    [max(1, totalIssues)], and the source, comment and blank line counts
    sum to at most [lines_of_code.total]. *)
Theorem result_counts (analysisResults : list string) (files : list (option File)) (r : Result) :
  processAnalysisResults parse readFileContent analysisResults files = Ok r ->
  (criticalIssues (summary r) <= totalIssues (summary r))%nat /\
  (1 <= cyclomatic (metrics r) <= Z.max 1 (Z.of_nat (totalIssues (summary r))))%Z /\
  (linesSource (metrics r) + linesComments (metrics r) + linesBlank (metrics r)
     <= Z.of_nat (linesTotal (metrics r)))%Z.
Proof.
  intros H. destruct (process_ok _ _ _ H) as [c [Hc [Hs [_ Hm]]]].
  rewrite Hs, Hm. cbn [criticalIssues totalIssues cyclomatic linesSource linesComments linesBlank linesTotal].
  split; [exact (countCritical_le _ _ Hc)|]. split.
  - set (n := Z.of_nat _).
    assert (Hn : (0 <= n)%Z) by apply Nat2Z.is_nonneg.
    assert (Hd : (n / 2 <= n)%Z) by (apply Z.div_le_upper_bound; lia).
    lia.
  - unfold floorTimes. set (T := inject_Z (Z.of_nat _)).
    pose proof (Qfloor_le (T * (4 # 5))) as H1.
    pose proof (Qfloor_le (T * (3 # 20))) as H2.
    pose proof (Qfloor_le (T * (1 # 20))) as H3.
    rewrite Zle_Qle, !inject_Z_plus. fold T. lra.
Qed.

End Results.

End AnalysisFacts.

(* ================================================================== *)
(** * The further properties at concrete inputs *)

Module ExtraWitnesses.
Import AIService ExtraFixtures.
Local Open Scope string_scope.

Definition gsvc : AIProvider.t := Fixtures.fakeService true (Ok "Gemini") (Some (Ok "report")).
Definition qsvc : AIProvider.t := Fixtures.fakeService true (Ok "Groq") None.
Definition hsvc : AIProvider.t := Fixtures.fakeService false (Ok "HF") None.

Lemma registry_attempt_order_witness :
  map name (attemptOrder (Registry.providers gsvc qsvc hsvc) (Some "groq")) =
  ["Groq"; "Gemini"; "HuggingFace"].
Proof.
  exact (BackendFacts.registry_attempt_order gsvc qsvc hsvc "groq"
           (or_intror (or_introl eq_refl))).
Defined.

Lemma analyze_first_candidate_witness :
  option_map (fun a => name (fst a))
    (hd_error (snd (AnalysisController.analyzeCode (Registry.providers gsvc qsvc hsvc) "now"
                      [("code", JStr "let x = 1;"); ("preferredProvider", JStr "groq")]))) =
  Some "Groq".
Proof.
  exact (BackendFacts.analyze_first_candidate gsvc qsvc hsvc "now"
           [("code", JStr "let x = 1;"); ("preferredProvider", JStr "groq")] "let x = 1;"
           eq_refl eq_refl).
Defined.

Lemma groq_without_key_witness :
  GroqService.isAvailable (GroqService.constructor None) = false /\
  GroqService.analyzeCode groqCreate prompt3 (GroqService.constructor None) "x" "go" "general"
    = Err GroqService.notInitialized.
Proof.
  destruct (AdapterFacts.groq_without_key None eq_refl) as [H1 H2].
  split; [exact H1|].
  exact (proj1 (H2 groqCreate prompt3 prompt2 prompt3 "x" "go" "general")).
Defined.

Lemma adapters_never_resolve_empty_witness :
  GroqService.analyzeCode groqEmpty prompt3 (GroqService.constructor (Some "groq-key")) "x" "go"
    "general" = Ok "No analysis generated" /\ "No analysis generated" <> "".
Proof.
  split; [reflexivity|].
  exact (proj1 AdapterFacts.adapters_never_resolve_empty groqEmpty prompt3
           (GroqService.constructor (Some "groq-key")) "x" "go" "general" _ eq_refl).
Defined.

Lemma huggingface_rejections_witness :
  HuggingFaceService.analyzeCode hfUnavailable prompt2 (HuggingFaceService.configOfEnv (Some "hf-key"))
    "x" "go" =
  Err (mkError "Hugging Face analysis failed: Hugging Face API error: Service Unavailable").
Proof.
  exact (proj2 (proj2 (proj2 (AdapterFacts.huggingface_rejections hfUnavailable prompt2 prompt2
           prompt3 (HuggingFaceService.configOfEnv (Some "hf-key"))))) "x" "go"
           (HuggingFaceService.mkResponse false "Service Unavailable" (Ok None)) eq_refl eq_refl).
Defined.

Lemma analyzeCode_result_origin_witness :
  exists r,
    fst (AIService.analyzeCode Fixtures.registry (AnalysisRequest.mk "x" None None None) "now") = Ok r /\
    exists p, In p Fixtures.registry /\ isListed p = true /\
      ProcessedAnalysisResult.provider r = name p /\
      AIProvider.analyzeCode (service p) "x" "javascript" "general"
        = Ok (ProcessedAnalysisResult.analysis r) /\
      ProcessedAnalysisResult.metadata r = Metadata.mk "javascript" "general" "now".
Proof.
  eexists. split; [reflexivity|].
  exact (ServiceFacts.analyzeCode_result_origin Fixtures.registry
           (AnalysisRequest.mk "x" None None None) "now" _ eq_refl).
Defined.

Lemma backend_requires_gemini_key_witness :
  exists providers, loadWith geminiUp geminiKeyOnly = Ok providers /\
    map name providers = ["Gemini"; "Groq"; "HuggingFace"].
Proof.
  exact (proj2 (LoadFacts.backend_requires_gemini_key geminiUp prompt3 prompt2 prompt3 reportPrompt
           groqCreate prompt3 prompt2 prompt3 hfFetch prompt2 prompt2 prompt3 geminiKeyOnly) eq_refl).
Defined.

Lemma provider_status_of_env_witness :
  loadWith geminiUp geminiKeyOnly = Ok (loaded geminiUp geminiKeyOnly) /\
  StatusController.getProviderStatus (loaded geminiUp geminiKeyOnly) geminiKeyOnly =
  Response.sendSuccess
    (JObj [ ("available_providers", JArr [JStr "Gemini"; JStr "HuggingFace"]);
            ("provider_configs",
             JObj [("gemini", JBool true); ("groq", JBool false); ("huggingface", JBool false)]) ]).
Proof.
  split; [reflexivity|].
  exact (LoadFacts.provider_status_of_env geminiUp prompt3 prompt2 prompt3 reportPrompt
           groqCreate prompt3 prompt2 prompt3 hfFetch prompt2 prompt2 prompt3 geminiKeyOnly
           (loaded geminiUp geminiKeyOnly) eq_refl).
Defined.

Lemma backend_report_from_gemini_witness :
  exists r,
    fst (AIService.generateReport (loaded geminiUp geminiKeyOnly) [JNull] None "now") = Ok r /\
    ProcessedAnalysisResult.provider r = "Gemini" /\
    GeminiService.generateReport geminiUp reportPrompt [JNull] None
      = Ok (ProcessedAnalysisResult.analysis r).
Proof.
  eexists. split; [reflexivity|].
  exact (LoadFacts.backend_report_from_gemini geminiUp prompt3 prompt2 prompt3 reportPrompt
           groqCreate prompt3 prompt2 prompt3 hfFetch prompt2 prompt2 prompt3 geminiKeyOnly
           (loaded geminiUp geminiKeyOnly) [JNull] None "now" _ eq_refl eq_refl).
Defined.

Lemma backend_report_failure_witness :
  fst (AIService.generateReport (loaded geminiDown geminiKeyOnly) [JNull] None "now") =
  Err (mkError "All AI providers failed. Last error: Report generation not supported by this provider").
Proof.
  exact (LoadFacts.backend_report_failure geminiDown prompt3 prompt2 prompt3 reportPrompt
           groqCreate prompt3 prompt2 prompt3 hfFetch prompt2 prompt2 prompt3 geminiKeyOnly
           (loaded geminiDown geminiKeyOnly) [JNull] None "now" eq_refl
           (ex_intro _ _ eq_refl)).
Defined.

Lemma leading_whitespace_ignored_witness :
  AnalysisController.analyzeCode Fixtures.registry "now" [("code", JStr " x")] =
    AnalysisController.analyzeCode Fixtures.registry "now" [("code", JStr "x")] /\
  AnalysisController.explainCode Fixtures.registry "now" [("code", JStr " x")] =
    AnalysisController.explainCode Fixtures.registry "now" [("code", JStr "x")] /\
  AnalysisController.suggestImprovements Fixtures.registry "now" (fun _ => "") [("code", JStr " x")] =
    AnalysisController.suggestImprovements Fixtures.registry "now" (fun _ => "") [("code", JStr "x")].
Proof.
  apply (ControllerFacts.leading_whitespace_ignored Fixtures.registry "now" (fun _ => "") []
           " "%char "x"); [reflexivity|simpl; lia].
Defined.

Lemma analyze_success_validated_witness :
  exists d, fst (AnalysisController.analyzeCode Fixtures.registry "now"
                   [("code", JStr "x"); ("language", JStr "Python")]) = Response.sendSuccess d /\
  exists r, d = AnalysisController.processedToJson r /\
    In (Metadata.language (ProcessedAnalysisResult.metadata r)) Validation.supportedLanguages /\
    In (Metadata.analysisType (ProcessedAnalysisResult.metadata r))
      ["general"; "security"; "performance"; "maintainability"] /\
    Metadata.timestamp (ProcessedAnalysisResult.metadata r) = "now".
Proof.
  eexists. split; [reflexivity|].
  exact (ControllerFacts.analyze_success_validated Fixtures.registry "now"
           [("code", JStr "x"); ("language", JStr "Python")] _ eq_refl).
Defined.

Lemma report_validation_witness :
  Response.status (fst (AnalysisController.generateReport Fixtures.registry "now" "now"
                          [("analysisResults", JArr [JNull])])) = 200 \/
  Response.status (fst (AnalysisController.generateReport Fixtures.registry "now" "now"
                          [("analysisResults", JArr [JNull])])) = 500.
Proof.
  apply (proj2 (ControllerFacts.report_validation Fixtures.registry "now" "now"
                  [("analysisResults", JArr [JNull])])).
  exists JNull, []. reflexivity.
Defined.

Lemma analyzeMultipleFiles_ok_witness :
  exists results,
    fst (ApiService.analyzeMultipleFiles errorString axiosMessage readFiles postOk
           [(0%nat, "javascript"); (1%nat, "python")] None None) = Ok results /\
    List.length results = List.length [(0%nat, "javascript"); (1%nat, "python")] /\
    snd (ApiService.analyzeMultipleFiles errorString axiosMessage readFiles postOk
           [(0%nat, "javascript"); (1%nat, "python")] None None) =
      map fst [(0%nat, "javascript"); (1%nat, "python")].
Proof.
  eexists. split; [reflexivity|].
  exact (ClientFacts.analyzeMultipleFiles_ok errorString axiosMessage readFiles postOk
           [(0%nat, "javascript"); (1%nat, "python")] None None _ eq_refl).
Defined.

Lemma analyzeMultipleFiles_stops_witness :
  exists e,
    fst (ApiService.analyzeMultipleFiles errorString axiosMessage readFiles postOk
           [(0%nat, "javascript"); (2%nat, "python"); (3%nat, "go")] None None) = Err e /\
    exists pre file language rest,
      [(0%nat, "javascript"); (2%nat, "python"); (3%nat, "go")] = (pre ++ (file, language) :: rest)%list /\
      ((readFiles file = Err e /\
        snd (ApiService.analyzeMultipleFiles errorString axiosMessage readFiles postOk
               [(0%nat, "javascript"); (2%nat, "python"); (3%nat, "go")] None None) = map fst pre) \/
       (exists content, readFiles file = Ok content /\
          ApiService.analyzeCode errorString axiosMessage
            (postOk (ApiService.requestBody (ApiService.mkRequest content (Some language)
                                               (Some "general") (Some "auto")))) = Err e /\
          snd (ApiService.analyzeMultipleFiles errorString axiosMessage readFiles postOk
                 [(0%nat, "javascript"); (2%nat, "python"); (3%nat, "go")] None None) =
            (map fst pre ++ [file])%list)).
Proof.
  eexists. split; [reflexivity|].
  exact (ClientFacts.analyzeMultipleFiles_stops errorString axiosMessage readFiles postOk
           [(0%nat, "javascript"); (2%nat, "python"); (3%nat, "go")] None None _ eq_refl).
Defined.

Lemma blank_file_rejected_witness :
  ApiService.analyzeMultipleFiles errorString axiosMessage readBlank
    (fun body => fst (AnalysisController.analyzeCode Fixtures.registry "now" body))
    [(0%nat, "javascript"); (1%nat, "go")] None None =
  (Err (mkError Validation.codeRequiredMessage), [0%nat]).
Proof.
  exact (ClientFacts.blank_file_rejected errorString axiosMessage readBlank Fixtures.registry "now"
           0%nat "javascript" [(1%nat, "go")] None None " " eq_refl eq_refl).
Defined.

Import AnalysisUtils.

Lemma extract_fenced_json_witness :
  extractJSONFromAnalysis parseText ("Result: " ++ "```json" ++ String "010" "{}" ++ "```" ++ "") =
  VObj [].
Proof.
  exact (AnalysisFacts.extract_fenced_json parseText "Result: " (String "010" "{}") "" eq_refl
           ltac:(simpl; intros H; repeat (destruct H as [H|H]; [discriminate H|]); exact H)
           ltac:(simpl; intros H; repeat (destruct H as [H|H]; [discriminate H|]); exact H)).
Defined.


Lemma score_in_scale_witness :
  exists r, processAnalysisResults parseText readFiles ["analysis-1"] [] = Ok r /\
    (0 <= maintainabilityScore (metrics r) <= 100)%Z /\
    maintainabilityScore (metrics r) = overallScore (summary r).
Proof.
  eexists. split; [reflexivity|].
  apply (AnalysisFacts.score_in_scale parseText readFiles ["analysis-1"] []); [|reflexivity].
  intros t q [<-|[]] _ Hf. vm_compute in Hf. injection Hf as <-.
  split; unfold Qle; simpl; lia.
Defined.

Lemma recommendations_distinct_witness :
  exists r, processAnalysisResults parseText readFiles ["analysis-1"; "analysis-3"] [] = Ok r /\
    (List.length (recommendations (summary r)) <= 5)%nat /\
    ForallOrdPairs (fun a b => sameValueZero a b = false) (recommendations (summary r)) /\
    (forall x, In x (recommendations (summary r)) ->
       exists t, In t ["analysis-1"; "analysis-3"] /\ truthy (extractJSONFromAnalysis parseText t) = true /\
         In x (arrayField (extractJSONFromAnalysis parseText t) "recommendations")).
Proof.
  eexists. split; [reflexivity|].
  exact (AnalysisFacts.recommendations_distinct parseText readFiles ["analysis-1"; "analysis-3"] []
           _ eq_refl).
Defined.

Lemma process_rejects_iff_witness :
  exists e, processAnalysisResults parseText readFiles ["analysis-1"; "analysis-2"] [Some 2%nat] = Err e.
Proof.
  apply (proj2 (AnalysisFacts.process_rejects_iff parseText readFiles ["analysis-1"; "analysis-2"]
                  [Some 2%nat])).
  exists "analysis-2", (VObj [("severity", VNum (3 # 1))]).
  split; [right; left; reflexivity|]. split; [reflexivity|].
  split; [vm_compute; left; reflexivity|].
  right. split; [reflexivity|]. intros s Hs. vm_compute in Hs. discriminate Hs.
Defined.

Lemma result_counts_witness :
  exists r, processAnalysisResults parseText readFiles ["analysis-1"] [Some 0%nat; Some 2%nat; None] = Ok r /\
    (criticalIssues (summary r) <= totalIssues (summary r))%nat /\
    (1 <= cyclomatic (metrics r) <= Z.max 1 (Z.of_nat (totalIssues (summary r))))%Z /\
    (linesSource (metrics r) + linesComments (metrics r) + linesBlank (metrics r)
       <= Z.of_nat (linesTotal (metrics r)))%Z.
Proof.
  eexists. split; [reflexivity|].
  exact (AnalysisFacts.result_counts parseText readFiles ["analysis-1"] [Some 0%nat; Some 2%nat; None]
           _ eq_refl).
Defined.

End ExtraWitnesses.
